(** * Control-board current characterisation: the numeric pipeline of plot.py

    A shallow embedding of
    [projects/control_board_current_characterization/plot.py]:
    [smooth_data], [read_tek_csv], the numeric part of
    [plot_voltage_and_current], the batch loop of [generate_all_plots] and
    the file selection of [main]; then the rest of the script: the names of
    the output files, [plot_voltage_and_current] with its file, figures and
    messages, and the calls the module makes before [main].

    Samples are IEEE-754 binary64 numbers (Rocq's primitive floats), as
    numpy's float64 arrays and Python's floats are; arrays are lists.
    Python exceptions are values of [exn]; a computation that may raise
    returns a [result]. *)

From Stdlib Require Import ZArith String Ascii Bool Floats Uint63 Lia List.
From Stdlib Require Import Sorted Permutation.
Import ListNotations.

Set Warnings "-inexact-float".

#[local] Open Scope Z_scope.

(** ** Exceptions and results *)

Inductive exn : Type :=
| ValueError
| IndexError
| FileNotFoundError
| EOFError
| OtherException (name : string)
| KeyboardInterrupt
| SystemExit.

(** [except Exception] catches every class below [Exception];
    [KeyboardInterrupt] and [SystemExit] derive from [BaseException] only. *)
Definition is_Exception (e : exn) : bool :=
  match e with
  | KeyboardInterrupt | SystemExit => false
  | _ => true
  end.

Inductive result (A : Type) : Type :=
| Ok (a : A)
| Raise (e : exn).

Arguments Ok {A} a.
Arguments Raise {A} e.

Definition bind {A B : Type} (c : result A) (k : A -> result B) : result B :=
  match c with
  | Ok a => k a
  | Raise e => Raise e
  end.

Declare Scope result_scope.
Delimit Scope result_scope with result.
Notation "x <- c ;; k" := (bind c (fun x => k))
  (at level 61, c at next level, right associativity) : result_scope.
Notation "' pat <- c ;; k" := (bind c (fun x => let 'pat := x in k))
  (at level 61, pat pattern, c at next level, right associativity) : result_scope.

(** ** The numpy operations the script uses *)

Module Np.

(** [len(a)] as a Python integer. *)
Definition len {A : Type} (a : list A) : Z := Z.of_nat (length a).

(** [np.pad(a, pad_width, mode='edge')] on a one-dimensional array: the first
    and the last element are repeated [pad_width] times.  A negative width is
    refused, and so is a positive width on an empty array. *)
Definition pad_edge {A : Type} (a : list A) (pad_width : Z) : result (list A) :=
  if pad_width <? 0 then Raise ValueError
  else
    match a with
    | [] => if pad_width =? 0 then Ok [] else Raise ValueError
    | x :: _ =>
        let n := Z.to_nat pad_width in
        Ok (repeat x n ++ a ++ repeat (last a x) n)
    end.

(** [np.ones(n)]: a negative dimension is refused. *)
Definition ones (n : Z) : result (list float) :=
  if n <? 0 then Raise ValueError else Ok (repeat 1%float (Z.to_nat n)).

(** A Python integer as a float64 operand. *)
Definition float_of_int (n : Z) : float := PrimFloat.of_uint63 (Uint63.of_Z n).

(** [a / n], an array divided by a Python integer. *)
Definition div_scalar (a : list float) (d : float) : list float :=
  map (fun x => (x / d)%float) a.

(** [a - d], an array minus a Python float. *)
Definition sub_scalar (a : list float) (d : float) : list float :=
  map (fun x => (x - d)%float) a.

(** One entry of the full discrete convolution,
    [(a * v)[n] = sum_m a[m] * v[n - m]], the products added in the order of
    [m], over the [m] for which both indices exist. *)
Definition conv_entry (a v : list float) (n : nat) : float :=
  fold_left
    (fun acc m =>
       if (m <=? n)%nat && (n - m <? length v)%nat
       then (acc + nth m a 0 * nth (n - m) v 0)%float
       else acc)
    (seq 0 (length a)) 0%float.

(** [np.convolve(a, v, mode='full')] for non-empty [a] and [v]:
    [len a + len v - 1] entries. *)
Definition conv_full (a v : list float) : list float :=
  map (conv_entry a v) (seq 0 (length a + length v - 1)).

(** [np.convolve(a, v, mode='same')]: the arguments are swapped when [v] is
    the longer one, empty arguments are refused, and the result is the
    centred part of the full convolution, as long as the longer argument. *)
Definition convolve_same (a v : list float) : result (list float) :=
  let '(a, v) := if (length a <? length v)%nat then (v, a) else (a, v) in
  match a, v with
  | [], _ => Raise ValueError
  | _, [] => Raise ValueError
  | _, _ =>
      Ok (firstn (length a) (skipn ((length v - 1) / 2)%nat (conv_full a v)))
  end.

(** An index of a slice brought into [0 .. len]: a negative index counts from
    the end. *)
Definition slice_index (n i : Z) : Z :=
  if i <? 0 then Z.max (i + n) 0 else Z.min i n.

(** [a[start:stop]]. *)
Definition slice {A : Type} (a : list A) (start stop : Z) : list A :=
  let lo := slice_index (len a) start in
  let hi := slice_index (len a) stop in
  firstn (Z.to_nat (hi - lo)) (skipn (Z.to_nat lo) a).

End Np.

(** ** plot.py *)

#[local] Open Scope result_scope.

(** Internal voltage offset of the TMCS1108A3U current sensor. *)
Definition VOLTAGE_OFFSET : float := 1.67%float.

(** [smooth_data(data, window_size=11)]: moving average with edge padding. *)
Definition smooth_data (data : list float) (window_size : Z) : result (list float) :=
  if Np.len data <? window_size then Ok data
  else
    let pad_width := window_size / 2 in
    padded_data <- Np.pad_edge data pad_width ;;
    kernel <- Np.ones window_size ;;
    smoothed <- Np.convolve_same padded_data
                  (Np.div_scalar kernel (Np.float_of_int window_size)) ;;
    Ok (Np.slice smoothed pad_width (- pad_width)).

(** The default of the [window_size] argument. *)
Definition default_window_size : Z := 11.

(** ** The string operations the script uses *)

Module Str.

(** The ASCII characters [str.strip()] removes. *)
Definition is_space (c : ascii) : bool :=
  let n := nat_of_ascii c in
  ((9 <=? n) && (n <=? 13) || (28 <=? n) && (n <=? 32))%nat.

Fixpoint lstrip (s : string) : string :=
  match s with
  | String c rest => if is_space c then lstrip rest else s
  | EmptyString => EmptyString
  end.

Fixpoint rstrip (s : string) : string :=
  match s with
  | EmptyString => EmptyString
  | String c rest =>
      match rstrip rest with
      | EmptyString => if is_space c then EmptyString else String c EmptyString
      | rest' => String c rest'
      end
  end.

(** [s.strip()]. *)
Definition strip (s : string) : string := rstrip (lstrip s).

(** [s.split(sep)] for a one-character separator: always at least one part. *)
Fixpoint split (sep : ascii) (s : string) : list string :=
  match s with
  | EmptyString => [EmptyString]
  | String c rest =>
      if Ascii.eqb c sep then EmptyString :: split sep rest
      else
        match split sep rest with
        | part :: parts => String c part :: parts
        | [] => [String c EmptyString]
        end
  end.

(** [s.rfind(c)] counted from [i]: the index of the last [c], or [-1]. *)
Fixpoint rfind_from (c : ascii) (s : string) (i : Z) : Z :=
  match s with
  | EmptyString => -1
  | String d rest =>
      let r := rfind_from c rest (i + 1) in
      if 0 <=? r then r else if Ascii.eqb d c then i else -1
  end.

Definition rfind (c : ascii) (s : string) : Z := rfind_from c s 0.

(** [s[i:]] and [s[:i]] for [0 <= i]. *)
Definition from (s : string) (i : Z) : string :=
  substring (Z.to_nat i) (String.length s - Z.to_nat i) s.

Definition upto (s : string) (i : Z) : string :=
  substring 0 (Z.to_nat i) s.

(** [s.startswith(t)] and [s.endswith(t)]. *)
Definition startswith (s t : string) : bool := prefix t s.

Definition endswith (s t : string) : bool :=
  (String.length t <=? String.length s)%nat
  && String.eqb (substring (String.length s - String.length t) (String.length t) s) t.

End Str.

(** ** posixpath *)

Module Path.

Definition sep : ascii := "/"%char.
Definition extsep : ascii := "."%char.

(** [os.path.basename(p)]: what follows the last separator. *)
Definition basename (p : string) : string :=
  let i := Str.rfind sep p + 1 in
  Str.from p i.

(** [os.path.splitext(p)]: the extension starts at the last dot of the last
    component, unless that component has nothing but dots before it. *)
Definition splitext (p : string) : string * string :=
  let sepIndex := Str.rfind sep p in
  let dotIndex := Str.rfind extsep p in
  if sepIndex <? dotIndex then
    let filenameIndex := Z.to_nat (sepIndex + 1) in
    if existsb
         (fun k => match String.get k p with
                   | Some c => negb (Ascii.eqb c extsep)
                   | None => false
                   end)
         (seq filenameIndex (Z.to_nat dotIndex - filenameIndex))
    then (Str.upto p dotIndex, Str.from p dotIndex)
    else (p, ""%string)
  else (p, ""%string).

(** [os.path.join(a, b)] for two components. *)
Definition join2 (path b : string) : string :=
  if Str.startswith b "/" then b
  else if String.eqb path "" || Str.endswith path "/" then (path ++ b)%string
  else (path ++ "/" ++ b)%string.

(** [os.path.join(a, *p)]. *)
Definition join (a : string) (p : list string) : string := fold_left join2 p a.

End Path.

(** ** Python lists *)

Module Py.

(** [l[i]]: a negative index counts from the end, an index outside
    [-len l .. len l - 1] raises [IndexError]. *)
Definition getitem {A : Type} (l : list A) (i : Z) : result A :=
  let j := if i <? 0 then i + Np.len l else i in
  if j <? 0 then Raise IndexError
  else
    match nth_error l (Z.to_nat j) with
    | Some x => Ok x
    | None => Raise IndexError
    end.

(** [x in l] for strings. *)
Definition contains (l : list string) (x : string) : bool :=
  existsb (String.eqb x) l.

End Py.

(** ** Reading a capture *)

Section Reading.

(** Python's [float()] on a string: [None] stands for its [ValueError]. *)
Variable float_of_str : string -> option float.

Definition py_float (s : string) : result float :=
  match float_of_str s with
  | Some x => Ok x
  | None => Raise ValueError
  end.

(** The two lists [read_tek_csv] appends to. *)
Record columns : Type := Columns {
  time_data : list float;
  voltage_data : list float
}.

(** The body of the [try]: both fields are converted before either list is
    appended to. *)
Definition try_row (parts : list string) (acc : columns) : result columns :=
  p3 <- Py.getitem parts 3 ;;
  time_val <- py_float p3 ;;
  p4 <- Py.getitem parts 4 ;;
  voltage_val <- py_float p4 ;;
  let acc := Columns (time_data acc ++ [time_val]) (voltage_data acc) in
  let acc := Columns (time_data acc) (voltage_data acc ++ [voltage_val]) in
  Ok acc.

(** One turn of the [for line in lines] loop, with its
    [except (ValueError, IndexError): continue]. *)
Definition read_line (acc : columns) (line : string) : result columns :=
  let parts := Str.split ","%char (Str.strip line) in
  if 5 <=? Np.len parts then
    match try_row parts acc with
    | Ok acc' => Ok acc'
    | Raise ValueError | Raise IndexError => Ok acc
    | Raise e => Raise e
    end
  else Ok acc.

Fixpoint read_lines (lines : list string) (acc : columns) : result columns :=
  match lines with
  | [] => Ok acc
  | line :: rest => acc' <- read_line acc line ;; read_lines rest acc'
  end.

(** [read_tek_csv(filename)], from the lines [file.readlines()] gave: the
    pair [(time, voltage)]. *)
Definition read_tek_csv (lines : list string) : result (list float * list float) :=
  acc <- read_lines lines (Columns [] []) ;;
  Ok (time_data acc, voltage_data acc).

(** *** The numeric part of [plot_voltage_and_current] *)

(** [voltage < t], the boolean mask. *)
Definition less_mask (a : list float) (t : float) : list bool :=
  map (fun x => (x <? t)%float) a.

(** [a[mask] = x], the masked assignment. *)
Fixpoint assign_where (a : list float) (mask : list bool) (x : float) : list float :=
  match a, mask with
  | y :: a', m :: mask' => (if m then x else y) :: assign_where a' mask' x
  | _, _ => a
  end.

(** The file's name without directory and extension. *)
Definition stem (filename : string) : string :=
  fst (Path.splitext (Path.basename filename)).

(** What the function computes before it plots. *)
Record traces : Type := Traces {
  time : list float;
  voltage_offset : float;
  voltage : list float;
  voltage_smooth : list float;
  sensitivity_v_per_a : float;
  current : list float;
  current_smooth : list float
}.

(** The offset for a file: plot 12 has its own. *)
Definition offset_for (filename : string) : float :=
  if Py.contains ["TEK0012"%string] (stem filename)
  then (VOLTAGE_OFFSET - 0.08)%float
  else VOLTAGE_OFFSET.

Definition plot_voltage_and_current
    (filename : string) (lines : list string) (sensitivity_mv_per_a : float)
    : result traces :=
  '(time, voltage) <- read_tek_csv lines ;;
  let voltage_offset := offset_for filename in
  let voltage := Np.sub_scalar voltage voltage_offset in
  let voltage := assign_where voltage (less_mask voltage (-0.1)%float) 0%float in
  voltage_smooth <- smooth_data voltage 11 ;;
  let sensitivity_v_per_a := (sensitivity_mv_per_a / 1000)%float in
  let current := Np.div_scalar voltage sensitivity_v_per_a in
  current_smooth <- smooth_data current 11 ;;
  Ok (Traces time voltage_offset voltage voltage_smooth
             sensitivity_v_per_a current current_smooth).

End Reading.

(** ** Batch processing and file selection *)

(** [s.lower()] on ASCII letters. *)
Definition lower_char (c : ascii) : ascii :=
  let n := nat_of_ascii c in
  if ((65 <=? n) && (n <=? 90))%nat then ascii_of_nat (n + 32) else c.

Fixpoint lower (s : string) : string :=
  match s with
  | EmptyString => EmptyString
  | String c rest => String (lower_char c) (lower rest)
  end.

(** [l.sort()] on strings: the order of [str], character by character. *)
Fixpoint insert_sorted (x : string) (l : list string) : list string :=
  match l with
  | [] => [x]
  | y :: l' => if String.leb x y then x :: l else y :: insert_sorted x l'
  end.

Definition sort (l : list string) : list string :=
  fold_right insert_sorted [] l.

(** The arguments of [plot_voltage_and_current] after the file name. *)
Record plot_args : Type := PlotArgs {
  arg_sensitivity_mv_per_a : float;
  arg_time_min : option float;
  arg_time_max : option float;
  arg_output_filename : option string;
  arg_show_smoothed : bool
}.

Definition default_args (sensitivity : float) : plot_args :=
  PlotArgs sensitivity None None None true.

(** What the script prints, one constructor per [print]. *)
Inductive message : Type :=
| MsgFolderNotFound (dir : string)
| MsgNoCsvFiles
| MsgFound (n : nat)
| MsgProcessing (i n : nat) (csv_file : string)
| MsgErrorProcessing (csv_file : string) (e : exn)
| MsgCompleted (n : nat)
| MsgAvailable
| MsgListed (i : nat) (file : string)
| MsgPrompt
| MsgInvalidSelection
| MsgFileNotFound (filename : string).

(** What a run does, in order: a [print], or a call of
    [plot_voltage_and_current] with the exception it ended with, if any. *)
Inductive event : Type :=
| Print (m : message)
| Plot (filename : string) (args : plot_args) (raised : option exn).

Section Script.

(** Everything a call of [plot_voltage_and_current] reads and writes. *)
Variable World : Type.

(** One call of [plot_voltage_and_current]: the world it leaves and the
    exception it raised, if any. *)
Variable run_plot : string -> plot_args -> World -> World * option exn.

(** [os.path.dirname(__file__)], [os.path.exists], [os.listdir],
    [int()] on a string ([None] for its [ValueError]). *)
Variable script_dir : string.
Variable path_exists : string -> bool.
Variable listdir : string -> result (list string).
Variable int_of_str : string -> option Z.

Record state : Type := State {
  world : World;
  log : list event
}.

Definition print (m : message) (st : state) : state :=
  State (world st) (log st ++ [Print m]).

Definition call_plot (filename : string) (args : plot_args) (st : state)
    : state * option exn :=
  let '(w, r) := run_plot filename args (world st) in
  (State w (log st ++ [Plot filename args r]), r).

Definition oscilloscope_data_dir : string :=
  Path.join script_dir ["Oscilloscope-Data"%string].

Definition csv_files_of (names : list string) : list string :=
  sort (filter (fun f => Str.endswith f ".CSV") names).

(** [os.path.join(oscilloscope_data_dir, csv_file)]. *)
Definition csv_path (csv_file : string) : string :=
  Path.join oscilloscope_data_dir [csv_file].

(** No call of [plot_voltage_and_current] ends in an exception outside
    [Exception]. *)
Definition raises_only_Exception : Prop :=
  forall filename args w e,
    snd (run_plot filename args w) = Some e -> is_Exception e = true.

(** The [for i, csv_file in enumerate(csv_files)] loop of
    [generate_all_plots], from index [i]; [n] is [len(csv_files)]. *)
Fixpoint batch_loop (args : plot_args) (n i : nat) (csv_files : list string)
    (st : state) : state * result unit :=
  match csv_files with
  | [] => (st, Ok tt)
  | csv_file :: rest =>
      let filename := csv_path csv_file in
      let st := print (MsgProcessing (i + 1) n csv_file) st in
      match call_plot filename args st with
      | (st, None) => batch_loop args n (S i) rest st
      | (st, Some e) =>
          if is_Exception e then
            let st := print (MsgErrorProcessing csv_file e) st in
            batch_loop args n (S i) rest st
          else (st, Raise e)
      end
  end.

Definition generate_all_plots (args : plot_args) (st : state)
    : state * result unit :=
  if negb (path_exists oscilloscope_data_dir) then
    (print (MsgFolderNotFound oscilloscope_data_dir) st, Ok tt)
  else
    match listdir oscilloscope_data_dir with
    | Raise e => (st, Raise e)
    | Ok names =>
        let csv_files := csv_files_of names in
        match csv_files with
        | [] => (print MsgNoCsvFiles st, Ok tt)
        | _ =>
            let n := length csv_files in
            let st := print (MsgFound n) st in
            match batch_loop args n 0 csv_files st with
            | (st, Ok _) => (print (MsgCompleted n) st, Ok tt)
            | (st, Raise e) => (st, Raise e)
            end
        end
    end.

(** The [for i, file in enumerate(csv_files)] listing of [main]. *)
Fixpoint print_listing (i : nat) (csv_files : list string) (st : state) : state :=
  match csv_files with
  | [] => st
  | file :: rest => print_listing (S i) rest (print (MsgListed i file) st)
  end.

Definition py_int (s : string) : result Z :=
  match int_of_str s with
  | Some n => Ok n
  | None => Raise ValueError
  end.

(** The final existence check of [main] and the call that follows it. *)
Definition plot_if_exists (filename : string) (st : state) : state * result unit :=
  if negb (path_exists filename) then
    (print (MsgFileNotFound filename) st, Ok tt)
  else
    let sensitivity := 200%float in
    match call_plot filename (default_args sensitivity) st with
    | (st, None) => (st, Ok tt)
    | (st, Some e) => (st, Raise e)
    end.

(** [main()]: [argv] is [sys.argv], [typed] what [input()] returns. *)
Definition main (argv : list string) (typed : result string) (st : state)
    : state * result unit :=
  match argv with
  | _ :: arg1 :: _ =>
      if String.eqb (lower arg1) "all" then
        generate_all_plots (default_args 200%float) st
      else
        let filename :=
          if Str.endswith arg1 ".CSV" then arg1 else (arg1 ++ ".CSV")%string in
        let filename :=
          Path.join script_dir ["Oscilloscope-Data"%string; filename] in
        plot_if_exists filename st
  | _ =>
      let st := print MsgAvailable st in
      match listdir oscilloscope_data_dir with
      | Raise e => (st, Raise e)
      | Ok names =>
          let csv_files := csv_files_of names in
          let st := print_listing 0 csv_files st in
          let st := print MsgPrompt st in
          let selection :=
            line <- typed ;;
            choice <- py_int line ;;
            csv_file <- Py.getitem csv_files choice ;;
            Ok (csv_path csv_file) in
          match selection with
          | Ok filename => plot_if_exists filename st
          | Raise ValueError | Raise IndexError =>
              (print MsgInvalidSelection st, Ok tt)
          | Raise e => (st, Raise e)
          end
      end
  end.

End Script.

Arguments State {World} world log.
Arguments world {World} s.
Arguments log {World} s.
Arguments print {World} m st.
Arguments print_listing {World} i csv_files st.

(** ** Vocabulary of the statements *)

Section RowsAsStated.

Variable float_of_str : string -> option float.

(** The comma-separated fields of a row, the surrounding white space of the
    line left out. *)
Definition row_fields (line : string) : list string :=
  Str.split ","%char (Str.strip line).

Definition parses (field : string) : bool :=
  match float_of_str field with
  | Some _ => true
  | None => false
  end.

Definition value_of (field : string) : float :=
  match float_of_str field with
  | Some x => x
  | None => nan
  end.

(** A row that is kept: at least five fields, of which the fourth and the
    fifth both read as floats. *)
Definition well_formed_row (line : string) : bool :=
  (5 <=? length (row_fields line))%nat
  && parses (nth 3 (row_fields line) ""%string)
  && parses (nth 4 (row_fields line) ""%string).

Definition row_time (line : string) : float :=
  value_of (nth 3 (row_fields line) ""%string).

Definition row_voltage (line : string) : float :=
  value_of (nth 4 (row_fields line) ""%string).

End RowsAsStated.

(** [c] does not occur in [s]. *)
Definition absent (c : ascii) (s : string) : Prop :=
  forall k, String.get k s <> Some c.

(** The order [l.sort()] sorts strings by. *)
Definition string_le (a b : string) : Prop := String.leb a b = true.

(** The calls of [plot_voltage_and_current] in a log, in order. *)
Definition attempts (l : list event) : list string :=
  flat_map (fun ev => match ev with
                      | Plot filename _ _ => [filename]
                      | Print _ => []
                      end) l.

(** The calls that raised, with what they raised. *)
Definition failures (l : list event) : list (string * exn) :=
  flat_map (fun ev => match ev with
                      | Plot filename _ (Some e) => [(filename, e)]
                      | _ => []
                      end) l.

(** The "Error processing" messages, with the file and the exception they
    name. *)
Definition reported (l : list event) : list (string * exn) :=
  flat_map (fun ev => match ev with
                      | Print (MsgErrorProcessing csv_file e) => [(csv_file, e)]
                      | _ => []
                      end) l.

(** A run of [main] that ends in the message [m] and makes no plot: it
    returns normally, leaves the world as it was, calls
    [plot_voltage_and_current] not once, and prints [m] last. *)
Definition returns_without_plot {World : Type}
    (st : state World) (out : state World * result unit) (m : message) : Prop :=
  snd out = Ok tt
  /\ world (fst out) = world st
  /\ attempts (log (fst out)) = attempts (log st)
  /\ exists shown, log (fst out) = log st ++ shown ++ [Print m].

(** ** Concrete inputs for the examples *)

Module Sample.

(** The value of a decimal digit. *)
Definition digit (c : ascii) : option Z :=
  let n := nat_of_ascii c in
  if ((48 <=? n) && (n <=? 57))%nat then Some (Z.of_nat n - 48) else None.

(** Digits read from [s]: the number so far, how many digits followed the
    point, and whether a digit was seen at all. *)
Fixpoint digits (s : string) (num : Z) (frac : option Z) (seen : bool)
    : option (Z * Z) :=
  match s with
  | EmptyString => if seen then Some (num, match frac with Some k => k | None => 0 end) else None
  | String c rest =>
      match digit c, frac with
      | Some d, None => digits rest (10 * num + d) None true
      | Some d, Some k => digits rest (10 * num + d) (Some (k + 1)) true
      | None, None => if Ascii.eqb c "."%char then digits rest num (Some 0) seen else None
      | None, Some _ => None
      end
  end.

(** [float()] on plain decimal numerals ("1.67", "-0.5", "12"): the digits as
    an integer over the power of ten, one correctly rounded division.  Python
    accepts more (exponents, "inf", "nan"); those read as [None] here. *)
Definition float_of_str (s : string) : option float :=
  let s := Str.strip s in
  let '(negative, body) :=
    match s with
    | String c rest => if Ascii.eqb c "-"%char then (true, rest) else (false, s)
    | EmptyString => (false, s)
    end in
  match digits body 0 None false with
  | Some (num, k) =>
      let x := (Np.float_of_int num / Np.float_of_int (10 ^ k))%float in
      Some (if negative then (- x)%float else x)
  | None => None
  end.

(** [int()] on plain decimal numerals. *)
Definition int_of_str (s : string) : option Z :=
  let s := Str.strip s in
  let '(negative, body) :=
    match s with
    | String c rest => if Ascii.eqb c "-"%char then (true, rest) else (false, s)
    | EmptyString => (false, s)
    end in
  match digits body 0 None false with
  | Some (num, 0) =>
      if existsb (Ascii.eqb "."%char) (list_ascii_of_string body) then None
      else Some (if negative then - num else num)
  | _ => None
  end.

(** A capture of eleven rows: the sensor rests at its offset, with one sample
    two volts above it. *)
Definition spike_rows : list string :=
  [ ",,,0.000,1.67"; ",,,0.001,1.67"; ",,,0.002,1.67"; ",,,0.003,1.67";
    ",,,0.004,1.67"; ",,,0.005,3.67"; ",,,0.006,1.67"; ",,,0.007,1.67";
    ",,,0.008,1.67"; ",,,0.009,1.67"; ",,,0.010,1.67" ]%string.

(** A capture with a header row, a short row and a row whose voltage does not
    read as a number. *)
Definition mixed_rows : list string :=
  [ "Record Length,2500,Points,0.5,1.75";
    "Source,CH1";
    ",,,0.75,n/a";
    ",,,1.5,1.5,extra" ]%string.

(** A world that only counts the plots made; a file named [BAD.CSV] makes
    [plot_voltage_and_current] raise. *)
Definition run_plot (filename : string) (args : plot_args) (made : nat)
    : nat * option exn :=
  if Str.endswith filename "BAD.CSV" then (made, Some ValueError)
  else (S made, None).

Definition folder : list string :=
  [ "TEK0017.CSV"; "notes.txt"; "BAD.CSV"; "TEK0012.CSV" ]%string.

(** A file system that holds [folder] under [Oscilloscope-Data]. *)
Definition path_exists (p : string) : bool :=
  existsb (String.eqb p)
    ([ "Oscilloscope-Data" ]%string
       ++ map (fun f => ("Oscilloscope-Data/" ++ f)%string) folder).

Definition listdir (p : string) : result (list string) :=
  if String.eqb p "Oscilloscope-Data" then Ok folder else Raise FileNotFoundError.

End Sample.

(** * The rest of the script *)

(** ** Names of the output files *)

Module Names.

(** [s.replace(old, new)] for a non-empty [old], scanning from the left;
    [skip] characters of a match just replaced are still to be passed over. *)
Fixpoint replace_from (old new : string) (skip : nat) (s : string) : string :=
  match s with
  | EmptyString => EmptyString
  | String c rest =>
      match skip with
      | S k => replace_from old new k rest
      | O =>
          if prefix old s
          then (new ++ replace_from old new (String.length old - 1) rest)%string
          else String c (replace_from old new 0 rest)
      end
  end.

Definition replace (old new s : string) : string := replace_from old new 0 s.

(** The base of the output names: the [output_filename] argument when it is
    given, the name of the capture without directory and extension
    otherwise. *)
Definition base_filename (filename : string) (output_filename : option string)
    : string :=
  let base_filename := stem filename in
  match output_filename with
  | Some name => name
  | None => base_filename
  end.

(** The test number shown in the corner of both plots. *)
Definition test_number (filename : string) : string :=
  replace "TEK" "" (stem filename).

Definition voltage_filename (filename : string) (output_filename : option string)
    : string :=
  (base_filename filename output_filename ++ "_voltage.png")%string.

Definition current_filename (filename : string) (output_filename : option string)
    : string :=
  (base_filename filename output_filename ++ "_current.png")%string.

End Names.


(** ** The script as a whole *)

Section Module_body.

Variable World : Type.
Variable run_plot : string -> plot_args -> World -> World * option exn.
Variable script_dir : string.
Variable path_exists : string -> bool.
Variable listdir : string -> result (list string).
Variable int_of_str : string -> option Z.

(** The three calls at the end of the file, which run before [main]. *)
Definition preset_calls : list (string * plot_args) :=
  [ ("Oscilloscope-Data/TEK0012.CSV"%string,
     PlotArgs 200 (Some 0.0440%float) (Some 0.0512%float)
              (Some "TEK0012_capacitor_spike"%string) false);
    ("Oscilloscope-Data/TEK0017.CSV"%string,
     PlotArgs 200 (Some 0.0292%float) (Some 0.0400%float)
              (Some "TEK0017_capacitor_spike"%string) false);
    ("Oscilloscope-Data/TEK0017.CSV"%string,
     PlotArgs 200 (Some 0.24%float) (Some 0.40%float)
              (Some "TEK0017_pos_contactor"%string) true) ].

(** Calls made one after the other; the first exception ends them. *)
Fixpoint run_calls (calls : list (string * plot_args)) (st : state World)
    : state World * result unit :=
  match calls with
  | [] => (st, Ok tt)
  | (filename, args) :: rest =>
      match call_plot World run_plot filename args st with
      | (st, None) => run_calls rest st
      | (st, Some e) => (st, Raise e)
      end
  end.

(** [python plot.py ...]: the module-level calls, then [main()]. *)
Definition run_script (argv : list string) (typed : result string)
    (st : state World) : state World * result unit :=
  match run_calls preset_calls st with
  | (st, Ok _) =>
      main World run_plot script_dir path_exists listdir int_of_str argv typed st
  | (st, Raise e) => (st, Raise e)
  end.

End Module_body.

(** How often [c] occurs in [s]. *)
Fixpoint occurrences (c : ascii) (s : string) : nat :=
  match s with
  | EmptyString => 0
  | String d rest => (if Ascii.eqb d c then 1 else 0) + occurrences c rest
  end.

(** An event that is not a call with other arguments than [args]. *)
Definition called_with (args : plot_args) (ev : event) : Prop :=
  match ev with
  | Plot _ a _ => a = args
  | Print _ => True
  end.

Module Interrupt.

(** A world in which the user interrupts the plot of [TEK0012.CSV]. *)
Definition run_plot (filename : string) (args : plot_args) (made : nat)
    : nat * option exn :=
  if Str.endswith filename "TEK0012.CSV" then (made, Some KeyboardInterrupt)
  else (S made, None).

End Interrupt.

(** ** [plot_voltage_and_current] with its files, figures and messages *)

Inductive figure : Type := VoltageFigure | CurrentFigure.

(** The calls into matplotlib, grouped as the function makes them: a figure
    drawn ([plt.subplots] up to [ax.text]) from the time, the raw curve, with
    [show_smoothed] the smoothed one, the title and the test number; the two
    axis limits; the figure saved ([plt.tight_layout], [plt.savefig]); the figure
    closed. *)
(** What the title of a figure is made of. *)
Inductive caption : Type :=
| VoltageTitle (basename : string) (offset : float)
| CurrentTitle (sensitivity_mv_per_a : float) (smoothed : bool).

Inductive mpl_call : Type :=
| Draw (fig : figure) (time raw : list float) (smoothed : option (list float))
       (title : caption) (test_number : string)
| SetXlim (fig : figure) (lo hi : option float)
| SetYlim (fig : figure) (lo hi : float)
| SaveFig (fig : figure) (path : string)
| Close (fig : figure).

(** What the function prints. *)
Inductive said : Type :=
| SaidSaved (fig : figure) (path : string)
| SaidFile (filename : string)
| SaidTimeRange (lo hi : float)
| SaidRange (fig : figure) (smoothed : bool) (lo hi : float)
| SaidDataPoints (n : nat)
| SaidWindow.

Inductive output : Type :=
| Called (c : mpl_call) (raised : option exn)
| Said (m : said).

(** The files saved in a run, in order. *)
Definition saved (l : list output) : list string :=
  flat_map (fun o => match o with
                     | Called (SaveFig _ path) None => [path]
                     | _ => []
                     end) l.

Section PlotIO.

Variable World : Type.

(** [open(filename).readlines()]. *)
Variable read_file : string -> World -> result (list string).

(** A call into matplotlib: the world it leaves, the exception it raised. *)
Variable mpl : mpl_call -> World -> World * option exn.

Variable float_of_str : string -> option float.

(** The values [a.min()] and [a.max()] return on a non-empty array. *)
Variable amin amax : list float -> float.

Record pstate : Type := PState {
  pworld : World;
  shown : list output
}.

(** A step of the function: the state it leaves and its result. *)
Definition io (A : Type) : Type := pstate -> pstate * result A.

Definition io_ret {A : Type} (a : A) : io A := fun st => (st, Ok a).

Definition io_bind {A B : Type} (c : io A) (k : A -> io B) : io B :=
  fun st =>
    match c st with
    | (st', Ok a) => k a st'
    | (st', Raise e) => (st', Raise e)
    end.

Definition lift {A : Type} (r : result A) : io A := fun st => (st, r).

Definition call (c : mpl_call) : io unit :=
  fun st =>
    let '(w, r) := mpl c (pworld st) in
    (PState w (shown st ++ [Called c r]),
     match r with
     | None => Ok tt
     | Some e => Raise e
     end).

Definition say (m : said) : io unit :=
  fun st => (PState (pworld st) (shown st ++ [Said m]), Ok tt).

Definition open_and_read (filename : string) : io (list string) :=
  fun st => (st, read_file filename (pworld st)).

(** [a.min()] and [a.max()]: an empty array has neither. *)
Definition reduce_min (a : list float) : result float :=
  match a with
  | [] => Raise ValueError
  | _ => Ok (amin a)
  end.

Definition reduce_max (a : list float) : result float :=
  match a with
  | [] => Raise ValueError
  | _ => Ok (amax a)
  end.

(** One entry of [time_mask]. *)
Definition in_window (time_min time_max : option float) (t : float) : bool :=
  match time_min with
  | None => true
  | Some lo => (lo <=? t)%float
  end
  && match time_max with
     | None => true
     | Some hi => (t <=? hi)%float
     end.

(** [a[mask]] for a boolean mask, which must be as long as [a]. *)
Fixpoint select (a : list float) (mask : list bool) : result (list float) :=
  match a, mask with
  | [], [] => Ok []
  | x :: a', m :: mask' =>
      (rest <- select a' mask' ;;
       Ok (if m then x :: rest else rest))%result
  | _, _ => Raise IndexError
  end.

Declare Scope io_scope.
Delimit Scope io_scope with io.
Notation "x <- c ;; k" := (io_bind c (fun x => k))
  (at level 61, c at next level, right associativity) : io_scope.
Notation "c ;; k" := (io_bind c (fun _ => k))
  (at level 61, right associativity) : io_scope.

#[local] Open Scope io_scope.

(** The [if time_min is not None or time_max is not None] block of a
    figure. *)
Definition set_limits (fig : figure) (time data : list float)
    (time_min time_max : option float) : io unit :=
  match time_min, time_max with
  | None, None => io_ret tt
  | _, _ =>
      call (SetXlim fig time_min time_max) ;;
      let time_mask := map (in_window time_min time_max) time in
      inside <- lift (select data time_mask) ;;
      lo <- lift (reduce_min inside) ;;
      inside <- lift (select data time_mask) ;;
      hi <- lift (reduce_max inside) ;;
      call (SetYlim fig (lo * 0.95)%float (hi * 1.05)%float)
  end.

(** One figure, from [plt.subplots] to [plt.close]. *)
Definition make_figure (fig : figure) (time raw smooth : list float)
    (args : plot_args) (title : caption) (test_number path : string) : io unit :=
  call (Draw fig time raw (if arg_show_smoothed args then Some smooth else None)
          title test_number) ;;
  set_limits fig time raw (arg_time_min args) (arg_time_max args) ;;
  call (SaveFig fig path) ;;
  say (SaidSaved fig path) ;;
  call (Close fig).

(** A line of the statistics: the range of an array. *)
Definition say_range (a : list float) (m : float -> float -> said) : io unit :=
  lo <- lift (reduce_min a) ;;
  hi <- lift (reduce_max a) ;;
  say (m lo hi).

(** [plot_voltage_and_current(filename, ...)]. *)
Definition plot_io (filename : string) (args : plot_args) : io unit :=
  lines <- open_and_read filename ;;
  r <- lift (plot_voltage_and_current float_of_str filename lines
               (arg_sensitivity_mv_per_a args)) ;;
  make_figure VoltageFigure (time r) (voltage r) (voltage_smooth r) args
    (VoltageTitle (Path.basename filename) (voltage_offset r))
    (Names.test_number filename)
    (Names.voltage_filename filename (arg_output_filename args)) ;;
  make_figure CurrentFigure (time r) (current r) (current_smooth r) args
    (CurrentTitle (arg_sensitivity_mv_per_a args) (arg_show_smoothed args))
    (Names.test_number filename)
    (Names.current_filename filename (arg_output_filename args)) ;;
  say (SaidFile filename) ;;
  say_range (time r) SaidTimeRange ;;
  say_range (voltage r) (SaidRange VoltageFigure false) ;;
  say_range (voltage_smooth r) (SaidRange VoltageFigure true) ;;
  say_range (current r) (SaidRange CurrentFigure false) ;;
  say_range (current_smooth r) (SaidRange CurrentFigure true) ;;
  say (SaidDataPoints (length (time r))) ;;
  say SaidWindow.

(** No call into matplotlib raises. *)
Definition mpl_quiet : Prop := forall c w, snd (mpl c w) = None.

End PlotIO.

(** The times of the samples of a file: those of its well-formed rows. *)
Definition times_of (float_of_str : string -> option float) (lines : list string)
    : list float :=
  map (row_time float_of_str) (filter (well_formed_row float_of_str) lines).

(** The time window is set and no sample of [time] lies in it. *)
Definition window_empty (time_min time_max : option float) (time : list float)
    : bool :=
  match time_min, time_max with
  | None, None => false
  | _, _ => forallb (fun t => negb (in_window time_min time_max t)) time
  end.

(** What was printed in a run, in order. *)
Definition messages (l : list output) : list said :=
  flat_map (fun o => match o with
                     | Said m => [m]
                     | Called _ _ => []
                     end) l.

Module SampleIO.

(** The smallest and the largest sample, by a scan from the left. *)
Definition amin (a : list float) : float :=
  match a with
  | [] => nan
  | x :: rest => fold_left (fun acc y => if (y <? acc)%float then y else acc) rest x
  end.

Definition amax (a : list float) : float :=
  match a with
  | [] => nan
  | x :: rest => fold_left (fun acc y => if (acc <? y)%float then y else acc) rest x
  end.

(** A folder with the capture [Sample.spike_rows] and a file of headers
    only. *)
Definition read_file (filename : string) (w : nat) : result (list string) :=
  if String.eqb filename "Oscilloscope-Data/TEK0017.CSV" then Ok Sample.spike_rows
  else if String.eqb filename "Oscilloscope-Data/TEK0001.CSV"
       then Ok ["Record Length,2500"; "Source,CH1"]%string
       else Raise FileNotFoundError.

(** Matplotlib at its best: every call returns, and is counted. *)
Definition mpl (c : mpl_call) (w : nat) : nat * option exn := (S w, None).

End SampleIO.

Section PlotAsCall.

Variable World : Type.
Variable read_file : string -> World -> result (list string).
Variable mpl : mpl_call -> World -> World * option exn.
Variable float_of_str : string -> option float.
Variable amin amax : list float -> float.

(** [plot_voltage_and_current] as [generate_all_plots] and [main] call it:
    the world it leaves and the exception it raised. *)
Definition as_run_plot (filename : string) (args : plot_args) (w : World)
    : World * option exn :=
  let '(st, r) :=
    plot_io World read_file mpl float_of_str amin amax filename args
      (PState World w []) in
  (pworld World st,
   match r with
   | Ok _ => None
   | Raise e => Some e
   end).

(** A step that raises nothing outside [Exception]. *)
Definition only_Exceptions {A : Type} (c : io World A) : Prop :=
  forall st st' e, c st = (st', Raise e) -> is_Exception e = true.

(** Reading a file raises nothing outside [Exception]. *)
Definition read_raises_Exceptions : Prop :=
  forall filename w e, read_file filename w = Raise e -> is_Exception e = true.

End PlotAsCall.

(** * Properties *)

(** ** Lengths through the numpy operations *)

Module NpFacts.

Lemma pad_edge_length {A : Type} (a : list A) (p : Z) :
  0 <= p -> a <> [] ->
  exists padded,
    Np.pad_edge a p = Ok padded /\
    length padded = (length a + 2 * Z.to_nat p)%nat.
Proof.
  intros Hp Ha. unfold Np.pad_edge.
  destruct (Z.ltb_spec p 0) as [Hneg | _]; [lia |].
  destruct a as [| x a']; [congruence |].
  eexists; split; [reflexivity |].
  rewrite !length_app, !repeat_length. lia.
Qed.

Lemma ones_length (n : Z) :
  0 <= n ->
  exists k, Np.ones n = Ok k /\ length k = Z.to_nat n.
Proof.
  intros Hn. unfold Np.ones.
  destruct (Z.ltb_spec n 0); [lia |].
  eexists; split; [reflexivity | apply repeat_length].
Qed.

Lemma div_scalar_length (a : list float) (d : float) :
  length (Np.div_scalar a d) = length a.
Proof. apply length_map. Qed.

Lemma sub_scalar_length (a : list float) (d : float) :
  length (Np.sub_scalar a d) = length a.
Proof. apply length_map. Qed.

Lemma conv_full_length (a v : list float) :
  length (Np.conv_full a v) = (length a + length v - 1)%nat.
Proof. unfold Np.conv_full. now rewrite length_map, length_seq. Qed.

(** 'same' mode: as long as the longer argument. *)
Lemma convolve_same_length (a v : list float) :
  (0 < length v <= length a)%nat ->
  exists out,
    Np.convolve_same a v = Ok out /\ length out = length a.
Proof.
  intros [Hv Hav]. unfold Np.convolve_same.
  destruct (Nat.ltb_spec (length a) (length v)) as [Hlt | _]; [lia |].
  destruct a as [| x a']; [simpl in *; lia |].
  destruct v as [| y v']; [simpl in *; lia |].
  eexists; split; [reflexivity |].
  rewrite length_firstn, length_skipn, conv_full_length.
  assert ((length (y :: v') - 1) / 2 <= length (y :: v') - 1)%nat
    by (apply Nat.Div0.div_le_upper_bound; lia).
  lia.
Qed.

Lemma slice_strip_length {A : Type} (a : list A) (p : Z) (n : nat) :
  0 < p -> length a = (n + 2 * Z.to_nat p)%nat ->
  length (Np.slice a p (- p)) = n.
Proof.
  intros Hp Hlen. unfold Np.slice, Np.slice_index, Np.len.
  destruct (Z.ltb_spec p 0); [lia |].
  destruct (Z.ltb_spec (- p) 0); [| lia].
  rewrite length_firstn, length_skipn. lia.
Qed.

End NpFacts.

Lemma smooth_data_short (data : list float) (window_size : Z) :
  Np.len data < window_size -> smooth_data data window_size = Ok data.
Proof.
  intros H. unfold smooth_data.
  destruct (Z.ltb_spec (Np.len data) window_size); [reflexivity | lia].
Qed.

Lemma smooth_data_long (data : list float) (window_size : Z) :
  2 <= window_size <= Np.len data ->
  exists padded kernel smoothed,
    Np.pad_edge data (window_size / 2) = Ok padded /\
    length padded = (length data + 2 * Z.to_nat (window_size / 2))%nat /\
    Np.ones window_size = Ok kernel /\
    length kernel = Z.to_nat window_size /\
    Np.convolve_same padded
      (Np.div_scalar kernel (Np.float_of_int window_size)) = Ok smoothed /\
    length smoothed = length padded /\
    smooth_data data window_size
      = Ok (Np.slice smoothed (window_size / 2) (- (window_size / 2))) /\
    length (Np.slice smoothed (window_size / 2) (- (window_size / 2)))
      = length data.
Proof.
  intros [Hw Hlen].
  assert (Hp : 1 <= window_size / 2) by (apply Z.div_le_lower_bound; lia).
  assert (Hp2 : 2 * (window_size / 2) <= window_size)
    by (apply Z.mul_div_le; lia).
  assert (Hne : data <> []).
  { intros ->. unfold Np.len in Hlen. simpl in Hlen. lia. }
  destruct (NpFacts.pad_edge_length data (window_size / 2)) as (padded & Epad & Lpad);
    [lia | exact Hne |].
  destruct (NpFacts.ones_length window_size) as (kernel & Eones & Lones); [lia |].
  destruct (NpFacts.convolve_same_length padded
              (Np.div_scalar kernel (Np.float_of_int window_size)))
    as (smoothed & Econv & Lconv).
  { rewrite NpFacts.div_scalar_length, Lones, Lpad. unfold Np.len in Hlen. lia. }
  exists padded, kernel, smoothed.
  repeat split; try assumption.
  - unfold smooth_data.
    destruct (Z.ltb_spec (Np.len data) window_size); [lia |].
    rewrite Epad. simpl. rewrite Eones. simpl. rewrite Econv. reflexivity.
  - apply NpFacts.slice_strip_length; [lia |]. now rewrite Lconv.
Qed.

Lemma smooth_data_default (data : list float) :
  exists out,
    smooth_data data default_window_size = Ok out /\ length out = length data.
Proof.
  unfold default_window_size.
  destruct (Z.lt_ge_cases (Np.len data) 11) as [Hshort | Hlong].
  - exists data. split; [now apply smooth_data_short | reflexivity].
  - destruct (smooth_data_long data 11) as (p & k & s & _ & _ & _ & _ & _ & _ & E & L);
      [lia |].
    eexists; split; [exact E | exact L].
Qed.

(** X1: for every window of at least two samples [smooth_data] returns an
    array as long as its input, not only for the default window. *)
Lemma smooth_data_length (data : list float) (window_size : Z) :
  2 <= window_size ->
  exists out,
    smooth_data data window_size = Ok out /\ length out = length data.
Proof.
  intros Hw.
  destruct (Z.lt_ge_cases (Np.len data) window_size) as [Hshort | Hlong].
  - exists data. split; [now apply smooth_data_short | reflexivity].
  - destruct (smooth_data_long data window_size)
      as (p & k & s & _ & _ & _ & _ & _ & _ & E & L); [lia |].
    eexists; split; [exact E | exact L].
Qed.

(** A window of one sample is the exception: the slice [smoothed[0:-0]] is
    empty. *)
Example smooth_data_window_one :
  smooth_data [1; 2; 3]%float 1 = Ok [].
Proof. reflexivity. Qed.

(** C10: an array strictly shorter than the window is returned as it is, with
    no padding, no convolution and no change, whatever the window size. *)
Theorem smooth_data_identity_when_short (data : list float) (window_size : Z) :
  Np.len data < window_size -> smooth_data data window_size = Ok data.
Proof.
  intros Hshort. unfold smooth_data.
  now rewrite (proj2 (Z.ltb_lt (Np.len data) window_size) Hshort).
Qed.

Lemma smooth_data_identity_when_short_witness :
  smooth_data [1; 2; 3]%float 11 = Ok [1; 2; 3]%float.
Proof.
  apply (smooth_data_identity_when_short [1; 2; 3]%float 11).
  unfold Np.len. simpl. lia.
Defined.

(** C1: with the default window of 11 samples [smooth_data] returns an array
    as long as its input.  An input of at least 11 samples is padded by
    11 // 2 = 5 samples on each edge, convolved in 'same' mode with eleven
    weights of 1/11, which keeps the padded length, and stripped of the
    padding; a shorter input is returned itself. *)
Theorem smooth_data_keeps_length (data : list float) :
  exists out,
    smooth_data data default_window_size = Ok out
    /\ length out = length data
    /\ (Np.len data < default_window_size -> out = data)
    /\ (default_window_size <= Np.len data ->
        exists padded kernel smoothed,
          default_window_size / 2 = 5
          /\ Np.pad_edge data 5 = Ok padded
          /\ length padded = (length data + 5 + 5)%nat
          /\ Np.ones default_window_size = Ok kernel
          /\ length kernel = 11%nat
          /\ Np.convolve_same padded
               (Np.div_scalar kernel (Np.float_of_int default_window_size))
             = Ok smoothed
          /\ length smoothed = length padded
          /\ out = Np.slice smoothed 5 (- 5)).
Proof.
  unfold default_window_size.
  destruct (Z.lt_ge_cases (Np.len data) 11) as [Hshort | Hlong].
  - exists data. rewrite (smooth_data_short data 11 Hshort).
    repeat split; auto. lia.
  - destruct (smooth_data_long data 11)
      as (padded & kernel & smoothed & Epad & Lpad & Eones & Lones & Econv
          & Lconv & Esmooth & Lout); [lia |].
    change (11 / 2) with 5 in *.
    eexists. split; [exact Esmooth |]. split; [exact Lout |]. split; [lia |].
    intros _. exists padded, kernel, smoothed.
    repeat split; auto. rewrite Lpad. simpl. lia.
Qed.

Lemma smooth_data_keeps_length_witness :
  exists out,
    smooth_data [0; 0; 0; 0; 0; 2; 0; 0; 0; 0; 0; 1]%float 11 = Ok out
    /\ length out = 12%nat.
Proof.
  destruct (smooth_data_keeps_length [0; 0; 0; 0; 0; 2; 0; 0; 0; 0; 0; 1]%float)
    as (out & Hout & Hlen & _).
  exists out. split; [exact Hout | exact Hlen].
Defined.

(** ** Reading *)

Section ReadingFacts.

Variable float_of_str : string -> option float.

Lemma getitem_in_range {A : Type} (l : list A) (i : Z) (d : A) :
  0 <= i < Np.len l -> Py.getitem l i = Ok (nth (Z.to_nat i) l d).
Proof.
  intros Hi. unfold Py.getitem, Np.len in *.
  destruct (Z.ltb_spec i 0); [lia |].
  destruct (Z.ltb_spec i 0); [lia |].
  rewrite (nth_error_nth' l d) by lia. reflexivity.
Qed.

(** The [try] block on a row of at least five fields: it ends normally when
    both fields read as floats, and in [ValueError] otherwise. *)
Lemma try_row_cases (parts : list string) (acc : columns) :
  (5 <= length parts)%nat ->
  try_row float_of_str parts acc =
    match float_of_str (nth 3 parts ""%string), float_of_str (nth 4 parts ""%string) with
    | Some t, Some v => Ok (Columns (time_data acc ++ [t]) (voltage_data acc ++ [v]))
    | _, _ => Raise ValueError
    end.
Proof.
  intros Hlen. unfold try_row.
  rewrite (getitem_in_range parts 3 ""%string) by (unfold Np.len; lia).
  rewrite (getitem_in_range parts 4 ""%string) by (unfold Np.len; lia).
  change (Z.to_nat 3) with 3%nat. change (Z.to_nat 4) with 4%nat.
  unfold py_float. simpl.
  destruct (float_of_str (nth 3 parts ""%string)); simpl; [| reflexivity].
  destruct (float_of_str (nth 4 parts ""%string)); reflexivity.
Qed.

Lemma read_line_keep (acc : columns) (line : string) :
  read_line float_of_str acc line
  = Ok (if well_formed_row float_of_str line
        then Columns (time_data acc ++ [row_time float_of_str line])
                     (voltage_data acc ++ [row_voltage float_of_str line])
        else acc).
Proof.
  unfold read_line, well_formed_row, row_time, row_voltage, parses,
    value_of, row_fields, Np.len.
  set (parts := Str.split ","%char (Str.strip line)).
  destruct (Z.leb_spec 5 (Z.of_nat (length parts))) as [Hge | Hlt].
  - rewrite try_row_cases by lia.
    destruct (Nat.leb_spec 5 (length parts)); [| lia].
    destruct (float_of_str (nth 3 parts ""%string));
      destruct (float_of_str (nth 4 parts ""%string)); reflexivity.
  - destruct (Nat.leb_spec 5 (length parts)); [lia | reflexivity].
Qed.

Lemma read_lines_keep (lines : list string) (acc : columns) :
  read_lines float_of_str lines acc =
    Ok (Columns
          (time_data acc
             ++ map (row_time float_of_str) (filter (well_formed_row float_of_str) lines))
          (voltage_data acc
             ++ map (row_voltage float_of_str) (filter (well_formed_row float_of_str) lines))).
Proof.
  revert acc. induction lines as [| line rest IH]; intros acc; simpl.
  - rewrite !app_nil_r. now destruct acc.
  - rewrite read_line_keep. simpl. rewrite IH.
    destruct (well_formed_row float_of_str line); simpl.
    + now rewrite <- !app_assoc.
    + reflexivity.
Qed.

Lemma read_tek_csv_eq (lines : list string) :
  read_tek_csv float_of_str lines =
    Ok (map (row_time float_of_str) (filter (well_formed_row float_of_str) lines),
        map (row_voltage float_of_str) (filter (well_formed_row float_of_str) lines)).
Proof. unfold read_tek_csv. rewrite read_lines_keep. reflexivity. Qed.


(** C9: the two arrays [read_tek_csv] returns are equally long: a row either
    appends one value to each list or leaves both alone. *)
Theorem read_tek_csv_columns_same_length (lines : list string) :
  (exists time voltage,
      read_tek_csv float_of_str lines = Ok (time, voltage)
      /\ length time = length voltage)
  /\ (forall acc line,
        exists acc',
          read_line float_of_str acc line = Ok acc'
          /\ ((time_data acc' = time_data acc
               /\ voltage_data acc' = voltage_data acc)
              \/ (exists t v,
                     time_data acc' = time_data acc ++ [t]
                     /\ voltage_data acc' = voltage_data acc ++ [v]))).
Proof.
  split.
  - rewrite read_tek_csv_eq.
    do 2 eexists. split; [reflexivity |]. now rewrite !length_map.
  - intros acc line. rewrite read_line_keep.
    destruct (well_formed_row float_of_str line);
      eexists; (split; [reflexivity |]); simpl.
    + right. eauto.
    + left. auto.
Qed.

End ReadingFacts.

Example read_tek_csv_mixed_rows :
  read_tek_csv Sample.float_of_str Sample.mixed_rows
  = Ok ([0.5; 1.5]%float, [1.75; 1.5]%float).
Proof. vm_compute. reflexivity. Qed.

(** ** The order of binary64 numbers *)

Module FloatOrder.

Import SpecFloat.

Lemma SFcompare_antisym (x y : spec_float) :
  SFcompare y x = option_map CompOpp (SFcompare x y).
Proof.
  destruct x as [s1 | s1 | | s1 m1 e1], y as [s2 | s2 | | s2 m2 e2]; simpl;
    try reflexivity;
    try (destruct s1; reflexivity);
    try (destruct s2; reflexivity);
    try (destruct s1, s2; reflexivity).
  destruct s1, s2; simpl; try reflexivity;
    rewrite (Z.compare_antisym e1 e2);
    destruct (e1 ?= e2) eqn:E; simpl; try reflexivity;
    change (Pos.compare_cont Eq m2 m1) with (Pos.compare_cont (CompOpp Eq) m2 m1);
    rewrite (Pos.compare_cont_antisym m1 m2 Eq);
    now rewrite ?CompOpp_involutive.
Qed.

(** [t <= v] excludes [v < t]. *)
Lemma leb_not_ltb (t v : float) :
  (t <=? v)%float = true -> (v <? t)%float = false.
Proof.
  rewrite FloatAxioms.leb_spec, FloatAxioms.ltb_spec.
  unfold SFleb, SFltb. rewrite (SFcompare_antisym (Prim2SF t) (Prim2SF v)).
  destruct (SFcompare (Prim2SF t) (Prim2SF v)) as [[| |] |]; simpl;
    congruence.
Qed.

End FloatOrder.

(** ** File names *)

Module PathFacts.

Lemma absent_tail (c d : ascii) (s : string) :
  absent c (String d s) -> d <> c /\ absent c s.
Proof.
  intros H. split.
  - intros ->. now apply (H 0%nat).
  - intros k. apply (H (S k)).
Qed.

Lemma rfind_from_absent (c : ascii) (s : string) :
  absent c s -> forall i, Str.rfind_from c s i = -1.
Proof.
  induction s as [| d s IH]; intros Habs i; simpl; [reflexivity |].
  apply absent_tail in Habs. destruct Habs as [Hd Hs].
  rewrite (IH Hs). simpl.
  now rewrite (proj2 (Ascii.eqb_neq d c) Hd).
Qed.

(** The last [c] of [s ++ c :: t] when [t] has none. *)
Lemma rfind_from_last (c : ascii) (s t : string) :
  absent c t ->
  forall i, 0 <= i ->
  Str.rfind_from c (s ++ String c t) i = i + Z.of_nat (String.length s).
Proof.
  intros Ht. induction s as [| d s IH]; intros i Hi; simpl.
  - rewrite (rfind_from_absent c t Ht). simpl.
    rewrite Ascii.eqb_refl. lia.
  - rewrite IH by lia.
    destruct (Z.leb_spec 0 (i + 1 + Z.of_nat (String.length s))); lia.
Qed.

Lemma substring_all (s : string) : substring 0 (String.length s) s = s.
Proof. induction s as [| c s IH]; simpl; [reflexivity | now rewrite IH]. Qed.

Lemma substring_after (s t : string) (c : ascii) :
  substring (S (String.length s)) (String.length t) (s ++ String c t) = t.
Proof.
  induction s as [| d s IH]; simpl.
  - apply substring_all.
  - exact IH.
Qed.

Lemma length_append (s t : string) :
  String.length (s ++ t) = (String.length s + String.length t)%nat.
Proof. induction s as [| c s IH]; simpl; [reflexivity | now rewrite IH]. Qed.

(** [basename] drops the directory. *)
Lemma basename_in_directory (dir name : string) :
  absent Path.sep name ->
  Path.basename (dir ++ String Path.sep name) = name.
Proof.
  intros Hname. unfold Path.basename, Str.rfind, Str.from.
  rewrite (rfind_from_last _ dir name Hname) by lia.
  replace (Z.to_nat (0 + Z.of_nat (String.length dir) + 1))
    with (S (String.length dir)) by lia.
  rewrite length_append. simpl String.length.
  replace (String.length dir + S (String.length name) - S (String.length dir))%nat
    with (String.length name) by lia.
  apply substring_after.
Qed.

Lemma basename_plain (name : string) :
  absent Path.sep name -> Path.basename name = name.
Proof.
  intros Hname. unfold Path.basename, Str.rfind, Str.from.
  rewrite (rfind_from_absent _ name Hname). simpl.
  rewrite Nat.sub_0_r. apply substring_all.
Qed.

(** The name TEK0012 with any extension. *)
Lemma splitext_TEK0012 (ext : string) :
  absent Path.sep ext -> absent Path.extsep ext ->
  Path.splitext ("TEK0012" ++ String Path.extsep ext)
  = ("TEK0012"%string, String Path.extsep ext).
Proof.
  intros Hsep Hdot. unfold Path.splitext, Str.rfind.
  rewrite (rfind_from_last Path.extsep "TEK0012" ext Hdot 0) by lia.
  assert (Hs : Str.rfind_from Path.sep ("TEK0012" ++ String Path.extsep ext) 0 = -1).
  { apply rfind_from_absent. intros k.
    do 8 (destruct k as [| k]; [discriminate |]). apply Hsep. }
  rewrite Hs. simpl.
  unfold Str.upto, Str.from. simpl.
  now rewrite substring_all.
Qed.

Lemma absent_TEK0012 (ext : string) :
  absent Path.sep ext ->
  absent Path.sep ("TEK0012" ++ String Path.extsep ext).
Proof.
  intros Hsep k. do 8 (destruct k as [| k]; [discriminate |]). apply Hsep.
Qed.

(** A file TEK0012 with any extension, in any directory, is the special
    case. *)
Lemma stem_TEK0012 (dir ext : string) :
  absent Path.sep ext -> absent Path.extsep ext ->
  stem (dir ++ "/TEK0012." ++ ext) = "TEK0012"%string
  /\ stem ("TEK0012." ++ ext) = "TEK0012"%string.
Proof.
  intros Hsep Hdot. unfold stem. split.
  - change (dir ++ "/TEK0012." ++ ext)%string
      with (dir ++ String Path.sep ("TEK0012" ++ String Path.extsep ext))%string.
    rewrite basename_in_directory by now apply absent_TEK0012.
    now rewrite splitext_TEK0012.
  - change ("TEK0012." ++ ext)%string
      with ("TEK0012" ++ String Path.extsep ext)%string.
    rewrite basename_plain by now apply absent_TEK0012.
    now rewrite splitext_TEK0012.
Qed.

(** X10: a capture named TEK0012 gets the offset of plot 12 whatever its
    directory and its extension are. *)
Lemma offset_for_TEK0012 (dir ext : string) :
  absent Path.sep ext -> absent Path.extsep ext ->
  offset_for (dir ++ "/TEK0012." ++ ext) = (VOLTAGE_OFFSET - 0.08)%float.
Proof.
  intros Hsep Hdot. unfold offset_for.
  now rewrite (proj1 (stem_TEK0012 dir ext Hsep Hdot)).
Qed.

End PathFacts.

(** ** The numeric part of [plot_voltage_and_current] *)

Lemma assign_where_less_mask (a : list float) (t x : float) :
  assign_where a (less_mask a t) x
  = map (fun y => if (y <? t)%float then x else y) a.
Proof. induction a as [| y a IH]; simpl; [reflexivity | now rewrite IH]. Qed.

Section PlotFacts.

Variable float_of_str : string -> option float.

(** The function always returns, and each array is the elementwise image of
    the one before it. *)
Lemma plot_steps (filename : string) (lines : list string) (s : float) :
  exists r raw,
    plot_voltage_and_current float_of_str filename lines s = Ok r
    /\ read_tek_csv float_of_str lines = Ok (time r, raw)
    /\ voltage_offset r = offset_for filename
    /\ voltage r
       = map (fun c => if (c <? -0.1)%float then 0%float else c)
             (map (fun x => (x - voltage_offset r)%float) raw)
    /\ smooth_data (voltage r) 11 = Ok (voltage_smooth r)
    /\ sensitivity_v_per_a r = (s / 1000)%float
    /\ current r = map (fun v => (v / sensitivity_v_per_a r)%float) (voltage r)
    /\ smooth_data (current r) 11 = Ok (current_smooth r).
Proof.
  unfold plot_voltage_and_current.
  rewrite read_tek_csv_eq. cbv beta iota delta [bind].
  set (raw := map (row_voltage float_of_str) _).
  set (v := assign_where _ _ _).
  destruct (smooth_data_default v) as (vs & Evs & _).
  unfold default_window_size in Evs. rewrite Evs.
  destruct (smooth_data_default (Np.div_scalar v (s / 1000)%float)) as (cs & Ecs & _).
  unfold default_window_size in Ecs. rewrite Ecs.
  eexists. exists raw. split; [reflexivity |]. cbn [time voltage_offset voltage
    voltage_smooth sensitivity_v_per_a current current_smooth].
  repeat split; try assumption.
  unfold v. now rewrite assign_where_less_mask.
Qed.

End PlotFacts.


Section PlotClaims.

Variable float_of_str : string -> option float.

(** C2: the raw current is the offset-corrected, clipped voltage divided,
    sample by sample, by the sensitivity in V/A, which is the sensitivity in
    mV/A over 1000. *)
Theorem current_is_voltage_over_sensitivity
    (filename : string) (lines : list string) (s : float) :
  exists r,
    plot_voltage_and_current float_of_str filename lines s = Ok r
    /\ sensitivity_v_per_a r = (s / 1000)%float
    /\ length (current r) = length (voltage r)
    /\ forall i v,
         nth_error (voltage r) i = Some v ->
         nth_error (current r) i = Some (v / (s / 1000))%float.
Proof.
  destruct (plot_steps float_of_str filename lines s)
    as (r & raw & Hr & _ & _ & _ & _ & Hs & Hc & _).
  exists r. rewrite Hc, Hs. repeat split; try assumption.
  - apply length_map.
  - intros i v Hv. now rewrite nth_error_map, Hv.
Qed.

(** C3: a sample of the offset-corrected voltage becomes 0 when it is below
    -0.1 and stays as it is otherwise; a sample at or above -0.1, negative or
    not, is unchanged. *)
Theorem clipping_below_threshold
    (filename : string) (lines : list string) (s : float) :
  exists r raw,
    plot_voltage_and_current float_of_str filename lines s = Ok r
    /\ read_tek_csv float_of_str lines = Ok (time r, raw)
    /\ length (voltage r) = length raw
    /\ forall i x,
         nth_error raw i = Some x ->
         let c := (x - voltage_offset r)%float in
         ((c <? -0.1)%float = true -> nth_error (voltage r) i = Some 0%float)
         /\ ((c <? -0.1)%float = false -> nth_error (voltage r) i = Some c)
         /\ ((-0.1 <=? c)%float = true -> nth_error (voltage r) i = Some c).
Proof.
  destruct (plot_steps float_of_str filename lines s)
    as (r & raw & Hr & Hraw & _ & Hv & _).
  exists r, raw. rewrite Hv.
  split; [exact Hr |]. split; [exact Hraw |]. split; [now rewrite !length_map |].
  intros i x Hx c. rewrite !nth_error_map, Hx. simpl. fold c.
  split; [| split].
  - intros Hlt. now rewrite Hlt.
  - intros Hge. now rewrite Hge.
  - intros Hle. now rewrite (FloatOrder.leb_not_ltb _ _ Hle).
Qed.


End PlotClaims.

Lemma current_is_voltage_over_sensitivity_witness :
  exists r,
    plot_voltage_and_current Sample.float_of_str
      "Oscilloscope-Data/TEK0017.CSV" Sample.spike_rows 200 = Ok r
    /\ nth_error (current r) 5 = Some (2 / (200 / 1000))%float.
Proof.
  destruct (current_is_voltage_over_sensitivity Sample.float_of_str
              "Oscilloscope-Data/TEK0017.CSV" Sample.spike_rows 200)
    as (r & Hr & _ & _ & H).
  exists r. split; [exact Hr |]. apply H.
  vm_compute in Hr. injection Hr as <-. reflexivity.
Defined.

Lemma clipping_below_threshold_witness :
  exists r,
    plot_voltage_and_current Sample.float_of_str
      "Oscilloscope-Data/TEK0012.CSV" Sample.mixed_rows 200 = Ok r
    /\ nth_error (voltage r) 1 = Some (1.5 - (1.67 - 0.08))%float
    /\ (1.5 - (1.67 - 0.08) <? 0)%float = true.
Proof.
  destruct (clipping_below_threshold Sample.float_of_str
              "Oscilloscope-Data/TEK0012.CSV" Sample.mixed_rows 200)
    as (r & raw & Hr & Hraw & _ & H).
  exists r. split; [exact Hr |]. split; [| reflexivity].
  vm_compute in Hr. injection Hr as <-.
  vm_compute in Hraw. injection Hraw as <-.
  destruct (H 1%nat 1.5%float eq_refl) as (_ & _ & Hkeep).
  apply Hkeep. reflexivity.
Defined.


(** C4: on the eleven-row capture [Sample.spike_rows] the current is the
    unsmoothed voltage over the sensitivity, and differs from the smoothed
    voltage over the sensitivity: its first sample is 0, where the smoothed
    voltage gives a positive value. *)
Theorem current_taken_from_unsmoothed_voltage :
  exists r,
    plot_voltage_and_current Sample.float_of_str
      "Oscilloscope-Data/TEK0017.CSV" Sample.spike_rows 200 = Ok r
    /\ current r = Np.div_scalar (voltage r) (sensitivity_v_per_a r)
    /\ current r <> Np.div_scalar (voltage_smooth r) (sensitivity_v_per_a r)
    /\ nth_error (current r) 0 = Some 0%float
    /\ (exists y, nth_error
                    (Np.div_scalar (voltage_smooth r) (sensitivity_v_per_a r)) 0
                  = Some y
                  /\ (0 <? y)%float = true).
Proof.
  eexists. split; [vm_compute; reflexivity |].
  split; [vm_compute; reflexivity |].
  split; [| split].
  - intros H.
    assert (E := f_equal (fun l => match l with
                                   | x :: _ => (x =? 0)%float
                                   | [] => false
                                   end) H).
    vm_compute in E. discriminate.
  - vm_compute. reflexivity.
  - eexists. split; [vm_compute; reflexivity | vm_compute; reflexivity].
Qed.

(** ** Sorting the file names *)

Lemma insert_sorted_perm (x : string) (l : list string) :
  Permutation (x :: l) (insert_sorted x l).
Proof.
  induction l as [| y l IH]; simpl; [reflexivity |].
  destruct (String.leb x y); [reflexivity |].
  rewrite perm_swap. now constructor.
Qed.

Lemma insert_sorted_hd (x y : string) (l : list string) :
  String.leb y x = true -> HdRel string_le y l -> HdRel string_le y (insert_sorted x l).
Proof.
  intros Hyx Hl. destruct l as [| z l]; simpl.
  - now constructor.
  - destruct (String.leb x z); constructor; [exact Hyx |].
    now inversion Hl.
Qed.

Lemma insert_sorted_sorted (x : string) (l : list string) :
  Sorted string_le l -> Sorted string_le (insert_sorted x l).
Proof.
  induction 1 as [| y l Hs IH Hhd]; simpl.
  - repeat constructor.
  - destruct (String.leb x y) eqn:E.
    + constructor; [now constructor | now constructor].
    + constructor; [exact IH |].
      apply insert_sorted_hd; [| exact Hhd].
      destruct (String.leb_total x y) as [H | H]; congruence.
Qed.

Lemma sort_perm (l : list string) : Permutation l (sort l).
Proof.
  induction l as [| x l IH]; simpl; [reflexivity |].
  rewrite <- insert_sorted_perm. now constructor.
Qed.

Lemma sort_sorted (l : list string) : Sorted string_le (sort l).
Proof.
  induction l as [| x l IH]; simpl; [constructor | now apply insert_sorted_sorted].
Qed.

(** ** Logs *)

Lemma attempts_app (l1 l2 : list event) :
  attempts (l1 ++ l2) = attempts l1 ++ attempts l2.
Proof. apply flat_map_app. Qed.

Lemma failures_app (l1 l2 : list event) :
  failures (l1 ++ l2) = failures l1 ++ failures l2.
Proof. apply flat_map_app. Qed.

Lemma reported_app (l1 l2 : list event) :
  reported (l1 ++ l2) = reported l1 ++ reported l2.
Proof. apply flat_map_app. Qed.

Section ScriptFacts.

Variable World : Type.
Variable run_plot : string -> plot_args -> World -> World * option exn.
Variable script_dir : string.
Variable path_exists : string -> bool.
Variable listdir : string -> result (list string).
Variable int_of_str : string -> option Z.

Lemma call_plot_log (filename : string) (args : plot_args) (st : state World) :
  exists w r,
    call_plot World run_plot filename args st
    = (State w (log st ++ [Plot filename args r]), r)
    /\ run_plot filename args (world st) = (w, r).
Proof.
  unfold call_plot. destruct (run_plot filename args (world st)) as [w r].
  now exists w, r.
Qed.

Lemma batch_loop_log (args : plot_args) (n : nat) (csv_files : list string) :
  raises_only_Exception World run_plot ->
  forall (i : nat) (st : state World),
  exists st' new,
    batch_loop World run_plot script_dir args n i csv_files st = (st', Ok tt)
    /\ log st' = log st ++ new
    /\ attempts new = map (csv_path script_dir) csv_files
    /\ failures new
       = map (fun '(csv_file, e) => (csv_path script_dir csv_file, e)) (reported new).
Proof.
  intros Hexn. induction csv_files as [| csv_file rest IH]; intros i st; cbn [batch_loop].
  - exists st, []. now rewrite app_nil_r.
  - destruct (call_plot_log (csv_path script_dir csv_file) args
                (print (MsgProcessing (i + 1) n csv_file) st))
      as (w & r & Ecall & Erun).
    rewrite Ecall. destruct r as [e |].
    + assert (He : is_Exception e = true).
      { apply (Hexn _ _ _ e (f_equal snd Erun)). }
      rewrite He.
      destruct (IH (S i) (print (MsgErrorProcessing csv_file e)
                          (State w (log (print (MsgProcessing (i + 1) n csv_file) st)
                                    ++ [Plot (csv_path script_dir csv_file) args (Some e)]))))
        as (st' & new & Eloop & Elog & Eatt & Efail).
      exists st', ([Print (MsgProcessing (i + 1) n csv_file);
                    Plot (csv_path script_dir csv_file) args (Some e);
                    Print (MsgErrorProcessing csv_file e)] ++ new).
      split; [exact Eloop |]. split.
      * rewrite Elog. simpl. now rewrite <- !app_assoc.
      * rewrite attempts_app, failures_app, reported_app, Eatt, Efail.
        split; reflexivity.
    + destruct (IH (S i) (State w (log (print (MsgProcessing (i + 1) n csv_file) st)
                                   ++ [Plot (csv_path script_dir csv_file) args None])))
        as (st' & new & Eloop & Elog & Eatt & Efail).
      exists st', ([Print (MsgProcessing (i + 1) n csv_file);
                    Plot (csv_path script_dir csv_file) args None] ++ new).
      split; [exact Eloop |]. split.
      * rewrite Elog. simpl. now rewrite <- !app_assoc.
      * rewrite attempts_app, failures_app, reported_app, Eatt, Efail.
        split; reflexivity.
Qed.

(** C7: when no call raises outside [Exception], [generate_all_plots] returns
    normally, having called [plot_voltage_and_current] on every file of the
    sorted list once, in order, whatever the earlier calls raised; the calls
    that raised are the ones an "Error processing" message names. *)
Theorem generate_all_plots_attempts_every_file
    (args : plot_args) (names : list string) (st : state World) :
  raises_only_Exception World run_plot ->
  path_exists (oscilloscope_data_dir script_dir) = true ->
  listdir (oscilloscope_data_dir script_dir) = Ok names ->
  let csv_files := csv_files_of names in
  exists st' new,
    generate_all_plots World run_plot script_dir path_exists listdir args st
    = (st', Ok tt)
    /\ log st' = log st ++ new
    /\ attempts new = map (csv_path script_dir) csv_files
    /\ failures new
       = map (fun '(csv_file, e) => (csv_path script_dir csv_file, e)) (reported new)
    /\ Sorted string_le csv_files
    /\ Permutation (filter (fun f => Str.endswith f ".CSV") names) csv_files.
Proof.
  intros Hexn Hdir Hls csv_files. unfold generate_all_plots.
  rewrite Hdir, Hls. simpl. fold csv_files.
  assert (Hsorted : Sorted string_le csv_files) by apply sort_sorted.
  assert (Hperm : Permutation (filter (fun f => Str.endswith f ".CSV") names) csv_files)
    by apply sort_perm.
  destruct csv_files as [| f fs] eqn:Ecsv.
  - exists (print MsgNoCsvFiles st), [Print MsgNoCsvFiles].
    repeat split; auto.
  - rewrite <- Ecsv in *.
    destruct (batch_loop_log args (length csv_files) csv_files Hexn 0%nat
                (print (MsgFound (length csv_files)) st))
      as (st' & new & Eloop & Elog & Eatt & Efail).
    rewrite Eloop.
    exists (print (MsgCompleted (length csv_files)) st'),
      ([Print (MsgFound (length csv_files))] ++ new
         ++ [Print (MsgCompleted (length csv_files))]).
    split; [reflexivity |]. split.
    + simpl. rewrite Elog. simpl. now rewrite <- !app_assoc.
    + rewrite !attempts_app, !failures_app, !reported_app, Eatt, Efail. simpl.
      rewrite !app_nil_r. auto.
Qed.

End ScriptFacts.

Lemma generate_all_plots_attempts_every_file_witness :
  exists st',
    generate_all_plots nat Sample.run_plot "" Sample.path_exists Sample.listdir
      (default_args 200) (State 0%nat []) = (st', Ok tt)
    /\ attempts (log st')
       = [ "Oscilloscope-Data/BAD.CSV"; "Oscilloscope-Data/TEK0012.CSV";
           "Oscilloscope-Data/TEK0017.CSV" ]%string
    /\ reported (log st') = [ ("BAD.CSV"%string, ValueError) ].
Proof.
  destruct (generate_all_plots_attempts_every_file nat Sample.run_plot ""
              Sample.path_exists Sample.listdir (default_args 200)
              Sample.folder (State 0%nat []))
    as (st' & new & Erun & Elog & Eatt & _).
  - intros filename args w e. unfold Sample.run_plot.
    destruct (Str.endswith filename "BAD.CSV"); simpl; intros H;
      inversion H; reflexivity.
  - reflexivity.
  - reflexivity.
  - exists st'. split; [exact Erun |]. split.
    + rewrite Elog. simpl. rewrite Eatt. reflexivity.
    + vm_compute in Erun. injection Erun as <-. reflexivity.
Defined.

Section MainFacts.

Variable World : Type.
Variable run_plot : string -> plot_args -> World -> World * option exn.
Variable script_dir : string.
Variable path_exists : string -> bool.
Variable listdir : string -> result (list string).
Variable int_of_str : string -> option Z.

Lemma print_returns_without_plot (m : message) (st0 st : state World)
    (shown : list event) :
  world st = world st0 ->
  log st = log st0 ++ shown ->
  attempts shown = [] ->
  returns_without_plot st0 (print m st, Ok tt) m.
Proof.
  intros Hw Hlog Hatt. unfold returns_without_plot. simpl.
  repeat split; [exact Hw | |].
  - rewrite Hlog, !attempts_app, Hatt. simpl. now rewrite !app_nil_r.
  - exists shown. now rewrite Hlog, app_assoc.
Qed.

Lemma print_listing_log (csv_files : list string) :
  forall (i : nat) (st : state World),
  exists shown,
    log (print_listing i csv_files st) = log st ++ shown
    /\ attempts shown = []
    /\ world (print_listing i csv_files st) = world st.
Proof.
  induction csv_files as [| file rest IH]; intros i st; simpl.
  - exists []. now rewrite app_nil_r.
  - destruct (IH (S i) (print (MsgListed i file) st)) as (shown & Elog & Eatt & Ew).
    exists (Print (MsgListed i file) :: shown).
    rewrite Elog, Ew. simpl. rewrite <- app_assoc. auto.
Qed.

Lemma plot_if_exists_missing (filename : string) (st0 st : state World)
    (shown : list event) :
  path_exists filename = false ->
  world st = world st0 ->
  log st = log st0 ++ shown ->
  attempts shown = [] ->
  returns_without_plot st0
    (plot_if_exists World run_plot path_exists filename st)
    (MsgFileNotFound filename).
Proof.
  intros Hmiss Hw Hlog Hatt. unfold plot_if_exists. rewrite Hmiss. simpl.
  now apply print_returns_without_plot with (shown := shown).
Qed.

(** What [main] has printed when it reads the selection. *)
Lemma menu_log (names : list string) (st : state World) :
  exists shown,
    log (print MsgPrompt
           (print_listing 0 (csv_files_of names) (print MsgAvailable st)))
    = log st ++ shown
    /\ attempts shown = []
    /\ world (print MsgPrompt
                (print_listing 0 (csv_files_of names) (print MsgAvailable st)))
       = world st.
Proof.
  destruct (print_listing_log (csv_files_of names) 0 (print MsgAvailable st))
    as (shown & Elog & Eatt & Ew).
  exists ([Print MsgAvailable] ++ shown ++ [Print MsgPrompt]).
  simpl. rewrite Elog, Ew. simpl.
  rewrite attempts_app, Eatt. simpl. rewrite <- !app_assoc. auto.
Qed.

Lemma getitem_out_of_range {A : Type} (l : list A) (i : Z) :
  i < - Np.len l \/ Np.len l <= i -> Py.getitem l i = Raise IndexError.
Proof.
  intros Hi. unfold Py.getitem, Np.len in *.
  destruct (Z.ltb_spec i 0).
  - destruct (Z.ltb_spec (i + Z.of_nat (length l)) 0); [reflexivity | lia].
  - destruct (Z.ltb_spec i 0); [lia |].
    destruct (nth_error l (Z.to_nat i)) eqn:E; [| reflexivity].
    assert (Z.to_nat i < length l)%nat by (apply nth_error_Some; congruence).
    lia.
Qed.

(** C8: [main] returns normally with an error message as its last output, and
    without calling [plot_voltage_and_current], when the file named on the
    command line does not exist, when what was typed is no integer or an
    integer outside the indices Python accepts for the listed files
    ([-n .. n-1] for [n] files), and when the file selected does not exist. *)
Theorem main_refuses_without_plotting
    (argv : list string) (typed : result string) (st : state World) :
  let run := main World run_plot script_dir path_exists listdir int_of_str
               argv typed st in
  (forall prog arg1 rest,
      argv = prog :: arg1 :: rest ->
      lower arg1 <> "all"%string ->
      let filename :=
        Path.join script_dir
          [ "Oscilloscope-Data"%string;
            if Str.endswith arg1 ".CSV" then arg1 else (arg1 ++ ".CSV")%string ] in
      path_exists filename = false ->
      returns_without_plot st run (MsgFileNotFound filename))
  /\ (forall names line,
         (length argv <= 1)%nat ->
         listdir (oscilloscope_data_dir script_dir) = Ok names ->
         typed = Ok line ->
         (int_of_str line = None
          \/ exists choice,
               int_of_str line = Some choice
               /\ (choice < - Np.len (csv_files_of names)
                   \/ Np.len (csv_files_of names) <= choice)) ->
         returns_without_plot st run MsgInvalidSelection)
  /\ (forall names line choice csv_file,
         (length argv <= 1)%nat ->
         listdir (oscilloscope_data_dir script_dir) = Ok names ->
         typed = Ok line ->
         int_of_str line = Some choice ->
         Py.getitem (csv_files_of names) choice = Ok csv_file ->
         path_exists (csv_path script_dir csv_file) = false ->
         returns_without_plot st run
           (MsgFileNotFound (csv_path script_dir csv_file))).
Proof.
  intros run. split; [| split].
  - intros prog arg1 rest -> Hall filename Hmiss. unfold run, main.
    destruct (String.eqb_spec (lower arg1) "all") as [E | _]; [contradiction |].
    apply plot_if_exists_missing with (shown := []);
      [exact Hmiss | reflexivity | now rewrite app_nil_r | reflexivity].
  - intros names line Hargv Hls -> Hbad.
    assert (Emain : run =
              match (choice <- py_int int_of_str line ;;
                     csv_file <- Py.getitem (csv_files_of names) choice ;;
                     Ok (csv_path script_dir csv_file))%result with
              | Ok filename =>
                  plot_if_exists World run_plot path_exists filename
                    (print MsgPrompt
                       (print_listing 0 (csv_files_of names) (print MsgAvailable st)))
              | Raise ValueError | Raise IndexError =>
                  (print MsgInvalidSelection
                     (print MsgPrompt
                        (print_listing 0 (csv_files_of names) (print MsgAvailable st))),
                   Ok tt)
              | Raise e =>
                  (print MsgPrompt
                     (print_listing 0 (csv_files_of names) (print MsgAvailable st)),
                   Raise e)
              end).
    { unfold run, main.
      destruct argv as [| prog [| arg1 rest]]; simpl in Hargv; try lia;
        rewrite Hls; reflexivity. }
    rewrite Emain.
    destruct (menu_log names st) as (shown & Elog & Eatt & Ew).
    unfold py_int.
    destruct Hbad as [Hnone | (choice & Hsome & Hrange)].
    + rewrite Hnone. simpl.
      now apply print_returns_without_plot with (shown := shown).
    + rewrite Hsome. simpl. rewrite (getitem_out_of_range _ _ Hrange). simpl.
      now apply print_returns_without_plot with (shown := shown).
  - intros names line choice csv_file Hargv Hls -> Hsome Hget Hmiss.
    destruct (menu_log names st) as (shown & Elog & Eatt & Ew).
    assert (Emain : run =
              plot_if_exists World run_plot path_exists (csv_path script_dir csv_file)
                (print MsgPrompt
                   (print_listing 0 (csv_files_of names) (print MsgAvailable st)))).
    { unfold run, main.
      destruct argv as [| prog [| arg1 rest]]; simpl in Hargv; try lia;
        rewrite Hls; unfold py_int; simpl; rewrite Hsome; simpl;
        rewrite Hget; reflexivity. }
    rewrite Emain.
    now apply plot_if_exists_missing with (shown := shown).
Qed.

End MainFacts.

Lemma main_refuses_without_plotting_witness :
  returns_without_plot (State 0%nat [])
    (main nat Sample.run_plot "" Sample.path_exists Sample.listdir
       Sample.int_of_str ["plot.py"; "TEK0099"]%string (Ok ""%string)
       (State 0%nat []))
    (MsgFileNotFound "Oscilloscope-Data/TEK0099.CSV")
  /\ returns_without_plot (State 0%nat [])
       (main nat Sample.run_plot "" Sample.path_exists Sample.listdir
          Sample.int_of_str ["plot.py"]%string (Ok "3"%string)
          (State 0%nat []))
       MsgInvalidSelection
  /\ returns_without_plot (State 0%nat [])
       (main nat Sample.run_plot "" (fun _ => false) Sample.listdir
          Sample.int_of_str ["plot.py"]%string (Ok "1"%string)
          (State 0%nat []))
       (MsgFileNotFound "Oscilloscope-Data/TEK0012.CSV").
Proof.
  split; [| split].
  - pose proof (main_refuses_without_plotting nat Sample.run_plot ""
                  Sample.path_exists Sample.listdir Sample.int_of_str
                  ["plot.py"; "TEK0099"]%string (Ok ""%string) (State 0%nat []))
      as H.
    cbv zeta in H. destruct H as (H & _ & _).
    specialize (H "plot.py"%string "TEK0099"%string [] eq_refl).
    apply H; [discriminate | reflexivity].
  - pose proof (main_refuses_without_plotting nat Sample.run_plot ""
                  Sample.path_exists Sample.listdir Sample.int_of_str
                  ["plot.py"]%string (Ok "3"%string) (State 0%nat []))
      as H.
    cbv zeta in H. destruct H as (_ & H & _).
    apply (H Sample.folder "3"%string); [simpl; lia | reflexivity | reflexivity |].
    right. exists 3. split; [reflexivity | right; vm_compute; discriminate].
  - pose proof (main_refuses_without_plotting nat Sample.run_plot ""
                  (fun _ => false) Sample.listdir Sample.int_of_str
                  ["plot.py"]%string (Ok "1"%string) (State 0%nat []))
      as H.
    cbv zeta in H. destruct H as (_ & _ & H).
    specialize (H Sample.folder "1"%string 1 "TEK0012.CSV"%string).
    change (csv_path "" "TEK0012.CSV")
      with ("Oscilloscope-Data/TEK0012.CSV"%string) in H.
    apply H;
      [simpl; lia | reflexivity | reflexivity | vm_compute; reflexivity
      | vm_compute; reflexivity | reflexivity].
Defined.

(** A negative number typed at the prompt counts from the end of the list, as
    Python's indexing does: -1 plots the last file. *)
Example main_negative_choice :
  attempts
    (log (fst (main nat Sample.run_plot "" Sample.path_exists Sample.listdir
                 Sample.int_of_str ["plot.py"]%string (Ok "-1"%string)
                 (State 0%nat []))))
  = ["Oscilloscope-Data/TEK0017.CSV"%string].
Proof. vm_compute. reflexivity. Qed.

(** * Properties of the rest of the script *)

(** ** More on [smooth_data] *)

Lemma smooth_data_length_witness :
  exists out,
    smooth_data [1; 2; 3; 4]%float 4 = Ok out /\ length out = 4%nat.
Proof.
  apply (smooth_data_length [1; 2; 3; 4]%float 4). lia.
Defined.

Lemma slice_nothing {A : Type} (a : list A) : Np.slice a 0 (- 0) = [].
Proof.
  unfold Np.slice, Np.slice_index. simpl.
  now rewrite Z.sub_diag.
Qed.

(** X2: with a window of one sample [smooth_data] returns an empty array,
    whatever the input: the padding is zero wide, and the slice
    [smoothed[0:-0]] that should strip it is [smoothed[0:0]]. *)
Theorem smooth_data_window_one_loses_samples (data : list float) :
  smooth_data data 1 = Ok [].
Proof.
  destruct data as [| x data]; [reflexivity |].
  unfold smooth_data.
  replace (Np.len (x :: data) <? 1) with false
    by (symmetry; apply Z.ltb_ge; unfold Np.len; simpl length; lia).
  change (1 / 2) with 0.
  unfold Np.pad_edge, Np.ones, Np.convolve_same, bind. simpl.
  destruct (length (data ++ [])); simpl; now rewrite slice_nothing.
Qed.

(** X3: a window of zero or fewer samples makes [smooth_data] raise
    [ValueError] on every input: a negative pad width is refused by [np.pad],
    an empty kernel by [np.convolve]. *)
Theorem smooth_data_window_not_positive (data : list float) (window_size : Z) :
  window_size <= 0 -> smooth_data data window_size = Raise ValueError.
Proof.
  intros Hw. unfold smooth_data.
  replace (Np.len data <? window_size) with false
    by (symmetry; apply Z.ltb_ge; unfold Np.len; lia).
  destruct (Z.eq_dec window_size 0) as [-> | Hneg].
  - change (0 / 2) with 0.
    destruct data as [| x data]; [reflexivity |].
    unfold Np.pad_edge, Np.ones, Np.convolve_same, bind. simpl.
    reflexivity.
  - assert (Hp : window_size / 2 < 0) by (apply Z.div_lt_upper_bound; lia).
    unfold Np.pad_edge.
    now rewrite (proj2 (Z.ltb_lt _ _) Hp).
Qed.

Lemma smooth_data_window_not_positive_witness :
  smooth_data [1; 2; 3]%float (-3) = Raise ValueError.
Proof.
  apply (smooth_data_window_not_positive [1; 2; 3]%float (-3)). lia.
Defined.

(** ** The moving average *)

Module Window.









End Window.


(** ** More on [read_tek_csv] *)

Module Fields.

Lemma split_length (sep : ascii) (s : string) :
  length (Str.split sep s) = S (occurrences sep s).
Proof.
  induction s as [| c s IH]; simpl; [reflexivity |].
  destruct (Ascii.eqb c sep); simpl; [now rewrite IH |].
  destruct (Str.split sep s) as [| part parts]; simpl in *; lia.
Qed.

Lemma lstrip_occurrences (c : ascii) (s : string) :
  (occurrences c (Str.lstrip s) <= occurrences c s)%nat.
Proof.
  induction s as [| d s IH]; simpl; [lia |].
  destruct (Str.is_space d); simpl; lia.
Qed.

Lemma rstrip_occurrences (c : ascii) (s : string) :
  (occurrences c (Str.rstrip s) <= occurrences c s)%nat.
Proof.
  induction s as [| d s IH]; simpl; [lia |].
  destruct (Str.rstrip s) as [| e r]; simpl in *.
  - destruct (Str.is_space d); simpl; lia.
  - lia.
Qed.

Lemma strip_occurrences (c : ascii) (s : string) :
  (occurrences c (Str.strip s) <= occurrences c s)%nat.
Proof.
  unfold Str.strip.
  pose proof (rstrip_occurrences c (Str.lstrip s)).
  pose proof (lstrip_occurrences c s). lia.
Qed.

End Fields.

Section ReadingMore.

Variable float_of_str : string -> option float.

(** X5: reading two runs of lines one after the other gives the samples of
    the first followed by the samples of the second: a row is kept or skipped
    on its own, whatever precedes it. *)
Theorem read_tek_csv_app (lines1 lines2 : list string) :
  exists t1 v1 t2 v2,
    read_tek_csv float_of_str lines1 = Ok (t1, v1)
    /\ read_tek_csv float_of_str lines2 = Ok (t2, v2)
    /\ read_tek_csv float_of_str (lines1 ++ lines2) = Ok (t1 ++ t2, v1 ++ v2).
Proof.
  rewrite !read_tek_csv_eq.
  do 4 eexists. split; [reflexivity |]. split; [reflexivity |].
  now rewrite filter_app, !map_app.
Qed.

(** X6: a line with fewer than four commas adds nothing to either list,
    whatever its fields hold. *)
Theorem read_line_needs_four_commas (acc : columns) (line : string) :
  (occurrences ","%char line < 4)%nat ->
  read_line float_of_str acc line = Ok acc.
Proof.
  intros Hfew. rewrite read_line_keep.
  unfold well_formed_row, row_fields.
  rewrite Fields.split_length.
  pose proof (Fields.strip_occurrences ","%char line).
  destruct (Nat.leb_spec 5 (S (occurrences ","%char (Str.strip line))));
    [lia | reflexivity].
Qed.

End ReadingMore.

Lemma read_line_needs_four_commas_witness :
  read_line Sample.float_of_str (Columns [1%float] [2%float]) "0.5,1.75,,"
  = Ok (Columns [1%float] [2%float]).
Proof.
  apply (read_line_needs_four_commas Sample.float_of_str).
  simpl. lia.
Defined.

(** ** More on the numeric part of [plot_voltage_and_current] *)

Lemma Ok_inj {A : Type} (a b : A) : Ok a = Ok b -> a = b.
Proof. now intros [= ->]. Qed.

Section PlotMore.

Variable float_of_str : string -> option float.

(** The arrays the function computes: the times of the well-formed rows, and
    four arrays as long as them. *)
Lemma plot_shape (filename : string) (lines : list string) (s : float) :
  exists r,
    plot_voltage_and_current float_of_str filename lines s = Ok r
    /\ time r
       = map (row_time float_of_str) (filter (well_formed_row float_of_str) lines)
    /\ length (voltage r) = length (time r)
    /\ length (voltage_smooth r) = length (time r)
    /\ length (current r) = length (time r)
    /\ length (current_smooth r) = length (time r).
Proof.
  destruct (plot_steps float_of_str filename lines s)
    as (r & raw & Hr & Hraw & _ & Hv & Hvs & _ & Hc & Hcs).
  rewrite read_tek_csv_eq in Hraw. apply Ok_inj in Hraw.
  injection Hraw as Htime Eraw.
  assert (Lraw : length raw = length (time r)).
  { rewrite <- Htime, <- Eraw. now rewrite !length_map. }
  assert (Lv : length (voltage r) = length (time r)).
  { rewrite Hv. now rewrite !length_map. }
  assert (Lc : length (current r) = length (time r)).
  { rewrite Hc. now rewrite length_map. }
  exists r. split; [exact Hr |]. split; [now symmetry |]. split; [exact Lv |].
  destruct (smooth_data_default (voltage r)) as (vs & Evs & Lvs).
  destruct (smooth_data_default (current r)) as (cs & Ecs & Lcs).
  unfold default_window_size in *.
  rewrite Hvs in Evs. apply Ok_inj in Evs. subst vs.
  rewrite Hcs in Ecs. apply Ok_inj in Ecs. subst cs.
  repeat split; congruence.
Qed.


(** X8: after the clipping no sample of the voltage is below -0.1, whatever
    the file holds. *)
Theorem plot_voltage_never_below_threshold
    (filename : string) (lines : list string) (s : float) :
  exists r,
    plot_voltage_and_current float_of_str filename lines s = Ok r
    /\ forall v, In v (voltage r) -> (v <? -0.1)%float = false.
Proof.
  destruct (plot_steps float_of_str filename lines s)
    as (r & raw & Hr & _ & _ & Hv & _).
  exists r. split; [exact Hr |].
  intros v Hin. rewrite Hv in Hin.
  apply in_map_iff in Hin. destruct Hin as (c & <- & _).
  destruct (c <? -0.1)%float eqn:E; [reflexivity | exact E].
Qed.

(** X9: a capture of fewer than eleven lines is not smoothed at all: the
    smoothed voltage and current are the raw ones. *)
Theorem plot_short_capture_unsmoothed
    (filename : string) (lines : list string) (s : float) :
  (length lines < 11)%nat ->
  exists r,
    plot_voltage_and_current float_of_str filename lines s = Ok r
    /\ voltage_smooth r = voltage r
    /\ current_smooth r = current r.
Proof.
  intros Hshort.
  destruct (plot_steps float_of_str filename lines s)
    as (r & raw & Hr & Hraw & _ & Hv & Hvs & _ & Hc & Hcs).
  rewrite read_tek_csv_eq in Hraw. apply Ok_inj in Hraw.
  injection Hraw as _ Eraw.
  assert (Lraw : (length raw <= length lines)%nat).
  { rewrite <- Eraw, length_map. apply filter_length_le. }
  assert (Lv : length (voltage r) = length raw).
  { rewrite Hv. now rewrite !length_map. }
  assert (Lc : length (current r) = length raw).
  { rewrite Hc, length_map. exact Lv. }
  exists r. split; [exact Hr |].
  rewrite smooth_data_short in Hvs by (unfold Np.len; lia).
  rewrite smooth_data_short in Hcs by (unfold Np.len; lia).
  apply Ok_inj in Hvs. apply Ok_inj in Hcs. now split.
Qed.

End PlotMore.

Lemma plot_short_capture_unsmoothed_witness :
  exists r,
    plot_voltage_and_current Sample.float_of_str
      "Oscilloscope-Data/TEK0012.CSV" Sample.mixed_rows 200 = Ok r
    /\ voltage_smooth r = voltage r
    /\ current_smooth r = current r.
Proof.
  apply (plot_short_capture_unsmoothed Sample.float_of_str).
  simpl. lia.
Defined.

Lemma offset_for_TEK0012_witness :
  offset_for ("captures/2024" ++ "/TEK0012." ++ "CSV")
  = (VOLTAGE_OFFSET - 0.08)%float.
Proof.
  apply (PathFacts.offset_for_TEK0012 "captures/2024" "CSV").
  - intros k. do 4 (destruct k as [| k]; [discriminate |]). discriminate.
  - intros k. do 4 (destruct k as [| k]; [discriminate |]). discriminate.
Defined.

(** ** Names of the output files *)

Module NamesFacts.

Import PathFacts.

Lemma absent_append (c : ascii) (s t : string) :
  absent c s -> absent c t -> absent c (s ++ t).
Proof.
  induction s as [| d s IH]; intros Hs Ht; simpl; [exact Ht |].
  apply absent_tail in Hs. destruct Hs as [Hd Hs].
  intros [| k]; simpl.
  - congruence.
  - now apply IH.
Qed.

Lemma absent_cons (c d : ascii) (s : string) :
  d <> c -> absent c s -> absent c (String d s).
Proof.
  intros Hd Hs [| k]; simpl; [congruence | apply Hs].
Qed.

Lemma substring_before (s t : string) :
  substring 0 (String.length s) (s ++ t) = s.
Proof.
  induction s as [| c s IH]; simpl.
  - now destruct t.
  - now rewrite IH.
Qed.

Lemma substring_from (s t : string) :
  substring (String.length s) (String.length t) (s ++ t) = t.
Proof.
  induction s as [| c s IH]; simpl; [apply substring_all | exact IH].
Qed.

(** [splitext] on a name with one dot. *)
Lemma splitext_name (name ext : string) :
  name <> ""%string ->
  absent Path.sep name -> absent Path.extsep name ->
  absent Path.sep ext -> absent Path.extsep ext ->
  Path.splitext (name ++ String Path.extsep ext) = (name, String Path.extsep ext).
Proof.
  intros Hne Hsn Hdn Hse Hde. unfold Path.splitext, Str.rfind.
  rewrite (rfind_from_last Path.extsep name ext Hde 0) by lia.
  rewrite rfind_from_absent.
  2:{ apply absent_append; [exact Hsn |].
      apply absent_cons; [discriminate | exact Hse]. }
  destruct (Z.ltb_spec (-1) (0 + Z.of_nat (String.length name))); [| lia].
  change (Z.to_nat (-1 + 1)) with 0%nat.
  replace (Z.to_nat (0 + Z.of_nat (String.length name)) - 0)%nat
    with (String.length name) by lia.
  destruct name as [| c name']; [congruence |].
  apply absent_tail in Hdn. destruct Hdn as [Hc _].
  assert (Hex : existsb
                  (fun k => match String.get k (String c name' ++ String Path.extsep ext) with
                            | Some c0 => negb (Ascii.eqb c0 Path.extsep)
                            | None => false
                            end)
                  (seq 0 (String.length (String c name'))) = true).
  { simpl. now rewrite (proj2 (Ascii.eqb_neq c Path.extsep) Hc). }
  rewrite Hex. unfold Str.upto, Str.from.
  replace (Z.to_nat (0 + Z.of_nat (String.length (String c name'))))
    with (String.length (String c name')) by lia.
  rewrite substring_before.
  rewrite length_append.
  replace (String.length (String c name') + String.length (String Path.extsep ext)
           - String.length (String c name'))%nat
    with (String.length (String Path.extsep ext)) by lia.
  now rewrite substring_from.
Qed.

(** The name of a capture without directory and extension. *)
Lemma stem_in_directory (dir name ext : string) :
  name <> ""%string ->
  absent Path.sep name -> absent Path.extsep name ->
  absent Path.sep ext -> absent Path.extsep ext ->
  stem (dir ++ "/" ++ name ++ "." ++ ext) = name.
Proof.
  intros Hne Hsn Hdn Hse Hde. unfold stem.
  change (dir ++ "/" ++ name ++ "." ++ ext)%string
    with (dir ++ String Path.sep (name ++ String Path.extsep ext))%string.
  rewrite basename_in_directory.
  - now rewrite splitext_name.
  - apply absent_append; [exact Hsn |].
    apply absent_cons; [discriminate | exact Hse].
Qed.

Lemma replace_absent (c : ascii) (old new s : string) :
  absent c s ->
  Names.replace_from (String c old) new 0 s = s.
Proof.
  induction s as [| d s IH]; intros Hs; simpl; [reflexivity |].
  apply absent_tail in Hs. destruct Hs as [Hd Hs].
  destruct (ascii_dec c d) as [E | _]; [congruence |].
  now rewrite IH.
Qed.

End NamesFacts.

(** X11: both plots of a capture [dir/name.ext] are saved under the name
    alone, [name_voltage.png] and [name_current.png]: the directory of the
    capture is dropped, so captures of the same name in different directories
    write the same two files. *)
Theorem output_names_drop_directory (dir name ext : string) :
  name <> ""%string ->
  absent Path.sep name -> absent Path.extsep name ->
  absent Path.sep ext -> absent Path.extsep ext ->
  Names.voltage_filename (dir ++ "/" ++ name ++ "." ++ ext) None
  = (name ++ "_voltage.png")%string
  /\ Names.current_filename (dir ++ "/" ++ name ++ "." ++ ext) None
     = (name ++ "_current.png")%string.
Proof.
  intros Hne Hsn Hdn Hse Hde.
  unfold Names.voltage_filename, Names.current_filename, Names.base_filename.
  now rewrite NamesFacts.stem_in_directory.
Qed.

(** X12: the test number shown on the plots of a capture [dir/TEKdigits.ext]
    is [digits], when no T occurs in them. *)
Theorem test_number_of_TEK_capture (dir digits ext : string) :
  absent "T"%char digits ->
  absent Path.sep digits -> absent Path.extsep digits ->
  absent Path.sep ext -> absent Path.extsep ext ->
  Names.test_number (dir ++ "/" ++ ("TEK" ++ digits) ++ "." ++ ext) = digits.
Proof.
  intros Ht Hsn Hdn Hse Hde. unfold Names.test_number.
  rewrite NamesFacts.stem_in_directory; try assumption.
  - unfold Names.replace.
    assert (E : Names.replace_from "TEK" "" 0 ("TEK" ++ digits) 
                = Names.replace_from "TEK" "" 0 digits)
      by (destruct digits; reflexivity).
    rewrite E. now apply NamesFacts.replace_absent.
  - discriminate.
  - do 3 (apply NamesFacts.absent_cons; [discriminate |]). exact Hsn.
  - do 3 (apply NamesFacts.absent_cons; [discriminate |]). exact Hdn.
Qed.

Ltac absent_in_literal :=
  let k := fresh "k" in
  intros k;
  repeat first [ discriminate | destruct k as [| k]; [discriminate |]; simpl ].

Lemma output_names_drop_directory_witness :
  Names.voltage_filename ("Oscilloscope-Data" ++ "/" ++ "TEK0017" ++ "." ++ "CSV") None
  = "TEK0017_voltage.png"%string
  /\ Names.current_filename ("Oscilloscope-Data" ++ "/" ++ "TEK0017" ++ "." ++ "CSV") None
     = "TEK0017_current.png"%string.
Proof.
  apply (output_names_drop_directory "Oscilloscope-Data" "TEK0017" "CSV");
    [discriminate | absent_in_literal ..].
Defined.

Lemma test_number_of_TEK_capture_witness :
  Names.test_number ("Oscilloscope-Data" ++ "/" ++ ("TEK" ++ "0017") ++ "." ++ "CSV")
  = "0017"%string.
Proof.
  apply (test_number_of_TEK_capture "Oscilloscope-Data" "0017" "CSV");
    absent_in_literal.
Defined.

(** ** More on [generate_all_plots] *)

Section BatchMore.

Variable World : Type.
Variable run_plot : string -> plot_args -> World -> World * option exn.
Variable script_dir : string.
Variable path_exists : string -> bool.
Variable listdir : string -> result (list string).

(** What the loop leaves, whatever the calls raise. *)
Lemma batch_loop_outcome (args : plot_args) (n : nat) (csv_files : list string) :
  forall (i : nat) (st : state World),
  exists new,
    log (fst (batch_loop World run_plot script_dir args n i csv_files st))
    = log st ++ new
    /\ Forall (called_with args) new
    /\ match snd (batch_loop World run_plot script_dir args n i csv_files st) with
       | Ok _ => attempts new = map (csv_path script_dir) csv_files
       | Raise e =>
           is_Exception e = false
           /\ exists done csv_file rest before,
                csv_files = done ++ csv_file :: rest
                /\ new = before ++ [Plot (csv_path script_dir csv_file) args (Some e)]
                /\ attempts before = map (csv_path script_dir) done
       end.
Proof.
  induction csv_files as [| csv_file rest IH]; intros i st; cbn [batch_loop].
  - exists []. simpl. rewrite app_nil_r. auto.
  - destruct (call_plot_log World run_plot (csv_path script_dir csv_file) args
                (print (MsgProcessing (i + 1) n csv_file) st))
      as (w & r & Ecall & _).
    rewrite Ecall. cbn [log print] in *.
    destruct r as [e |]; [destruct (is_Exception e) eqn:He |].
    + destruct (IH (S i) (print (MsgErrorProcessing csv_file e)
                          (State w ((log st ++ [Print (MsgProcessing (i + 1) n csv_file)])
                                    ++ [Plot (csv_path script_dir csv_file) args (Some e)]))))
        as (new & Elog & Hargs & Hout).
      exists ([Print (MsgProcessing (i + 1) n csv_file);
               Plot (csv_path script_dir csv_file) args (Some e);
               Print (MsgErrorProcessing csv_file e)] ++ new).
      split; [rewrite Elog; cbn [log print]; now rewrite <- !app_assoc |].
      split; [repeat constructor; exact Hargs |].
      destruct (snd (batch_loop World run_plot script_dir args n (S i) rest _)) as [u | e'].
      * rewrite attempts_app, Hout. reflexivity.
      * destruct Hout as (He' & done & f & rest' & before & -> & -> & Hatt).
        split; [exact He' |].
        exists (csv_file :: done), f, rest',
          ([Print (MsgProcessing (i + 1) n csv_file);
            Plot (csv_path script_dir csv_file) args (Some e);
            Print (MsgErrorProcessing csv_file e)] ++ before).
        split; [reflexivity |]. split; [now rewrite <- app_assoc |].
        rewrite attempts_app, Hatt. reflexivity.
    + exists [Print (MsgProcessing (i + 1) n csv_file);
              Plot (csv_path script_dir csv_file) args (Some e)].
      cbn [fst snd log]. split; [now rewrite <- app_assoc |].
      split; [repeat constructor |].
      split; [exact He |].
      exists [], csv_file, rest, [Print (MsgProcessing (i + 1) n csv_file)].
      repeat split.
    + destruct (IH (S i) (State w ((log st ++ [Print (MsgProcessing (i + 1) n csv_file)])
                                   ++ [Plot (csv_path script_dir csv_file) args None])))
        as (new & Elog & Hargs & Hout).
      exists ([Print (MsgProcessing (i + 1) n csv_file);
               Plot (csv_path script_dir csv_file) args None] ++ new).
      split; [rewrite Elog; cbn [log]; now rewrite <- !app_assoc |].
      split; [repeat constructor; exact Hargs |].
      destruct (snd (batch_loop World run_plot script_dir args n (S i) rest _)) as [u | e'].
      * rewrite attempts_app, Hout. reflexivity.
      * destruct Hout as (He' & done & f & rest' & before & -> & -> & Hatt).
        split; [exact He' |].
        exists (csv_file :: done), f, rest',
          ([Print (MsgProcessing (i + 1) n csv_file);
            Plot (csv_path script_dir csv_file) args None] ++ before).
        split; [reflexivity |]. split; [now rewrite <- app_assoc |].
        rewrite attempts_app, Hatt. reflexivity.
Qed.

(** X13: [generate_all_plots] ends in an exception only when listing the
    folder raised it, or when a call of [plot_voltage_and_current] raised it
    and it is no [Exception] (a [KeyboardInterrupt], a [SystemExit]); then
    that call is the last thing done: no message follows, and the files after
    it in the sorted list are not attempted. *)
Theorem generate_all_plots_stops_at_interrupt
    (args : plot_args) (st st' : state World) (e : exn) :
  generate_all_plots World run_plot script_dir path_exists listdir args st
  = (st', Raise e) ->
  (listdir (oscilloscope_data_dir script_dir) = Raise e /\ st' = st)
  \/ (is_Exception e = false
      /\ exists names done csv_file rest before,
           listdir (oscilloscope_data_dir script_dir) = Ok names
           /\ csv_files_of names = done ++ csv_file :: rest
           /\ log st' = log st ++ before
                        ++ [Plot (csv_path script_dir csv_file) args (Some e)]
           /\ attempts before = map (csv_path script_dir) done).
Proof.
  unfold generate_all_plots.
  destruct (path_exists (oscilloscope_data_dir script_dir)); simpl;
    [| discriminate].
  destruct (listdir (oscilloscope_data_dir script_dir)) as [names | e0];
    [| intros [= <- <-]; now left].
  destruct (csv_files_of names) as [| f fs] eqn:Ecsv; [discriminate |].
  rewrite <- Ecsv.
  destruct (batch_loop_outcome args (length (csv_files_of names)) (csv_files_of names)
              0%nat (print (MsgFound (length (csv_files_of names))) st))
    as (new & Elog & _ & Hout).
  destruct (batch_loop World run_plot script_dir args (length (csv_files_of names)) 0
              (csv_files_of names) (print (MsgFound (length (csv_files_of names))) st))
    as [st1 [u | e1]]; [discriminate |].
  intros [= <- <-]. right. cbn [fst snd] in *.
  destruct Hout as (He & done & csv_file & rest & before & Efiles & -> & Hatt).
  split; [exact He |].
  exists names, done, csv_file, rest,
    ([Print (MsgFound (length (csv_files_of names)))] ++ before).
  split; [reflexivity |]. split; [exact Efiles |]. split.
  - rewrite Elog. cbn [log print]. now rewrite <- !app_assoc.
  - rewrite attempts_app, Hatt. reflexivity.
Qed.

(** X14: every call [generate_all_plots] makes passes on the arguments it was
    given itself: sensitivity, time range, output name and smoothing flag. *)
Theorem generate_all_plots_passes_arguments
    (args : plot_args) (st : state World) :
  exists new,
    log (fst (generate_all_plots World run_plot script_dir path_exists listdir
                args st))
    = log st ++ new
    /\ Forall (called_with args) new.
Proof.
  unfold generate_all_plots.
  destruct (path_exists (oscilloscope_data_dir script_dir)); simpl.
  2:{ eexists. split; [reflexivity | repeat constructor]. }
  destruct (listdir (oscilloscope_data_dir script_dir)) as [names | e0].
  2:{ exists []. simpl. now rewrite app_nil_r. }
  destruct (csv_files_of names) as [| f fs] eqn:Ecsv.
  { eexists. split; [reflexivity | repeat constructor]. }
  rewrite <- Ecsv.
  destruct (batch_loop_outcome args (length (csv_files_of names)) (csv_files_of names)
              0%nat (print (MsgFound (length (csv_files_of names))) st))
    as (new & Elog & Hargs & _).
  destruct (batch_loop World run_plot script_dir args (length (csv_files_of names)) 0
              (csv_files_of names) (print (MsgFound (length (csv_files_of names))) st))
    as [st1 [u | e1]]; cbn [fst snd log print] in *.
  - exists ([Print (MsgFound (length (csv_files_of names)))] ++ new
             ++ [Print (MsgCompleted (length (csv_files_of names)))]).
    split; [rewrite Elog; now rewrite <- !app_assoc |].
    constructor; [exact I |]. apply Forall_app. split; [exact Hargs |].
    repeat constructor.
  - exists ([Print (MsgFound (length (csv_files_of names)))] ++ new).
    split; [rewrite Elog; now rewrite <- !app_assoc |].
    constructor; [exact I | exact Hargs].
Qed.

Lemma csv_files_of_none (names : list string) :
  (forall name, In name names -> Str.endswith name ".CSV" = false) ->
  csv_files_of names = [].
Proof.
  intros Hnone. unfold csv_files_of.
  replace (filter (fun f => Str.endswith f ".CSV") names) with (@nil string);
    [reflexivity |].
  symmetry. induction names as [| name names IH]; [reflexivity |]. simpl.
  rewrite (Hnone name) by now left.
  apply IH. intros name' Hin. apply Hnone. now right.
Qed.

(** X15: when the folder is missing, or no name in it ends in [.CSV] (capital
    letters: [a.csv] does not count), [generate_all_plots] prints one message
    and returns normally without any call of [plot_voltage_and_current]. *)
Theorem generate_all_plots_nothing_to_plot
    (args : plot_args) (names : list string) (st : state World) :
  path_exists (oscilloscope_data_dir script_dir) = false
  \/ (listdir (oscilloscope_data_dir script_dir) = Ok names
      /\ forall name, In name names -> Str.endswith name ".CSV" = false) ->
  exists m,
    generate_all_plots World run_plot script_dir path_exists listdir args st
    = (print m st, Ok tt)
    /\ (m = MsgFolderNotFound (oscilloscope_data_dir script_dir)
        \/ m = MsgNoCsvFiles).
Proof.
  intros Hcase. unfold generate_all_plots.
  destruct (path_exists (oscilloscope_data_dir script_dir)) eqn:Edir; simpl.
  - destruct Hcase as [Hmiss | [Hls Hnone]]; [discriminate |].
    rewrite Hls, (csv_files_of_none names Hnone). eauto.
  - eauto.
Qed.

End BatchMore.

Lemma generate_all_plots_stops_at_interrupt_witness :
  is_Exception KeyboardInterrupt = false
  /\ attempts
       (log (fst (generate_all_plots nat Interrupt.run_plot "" Sample.path_exists
                    Sample.listdir (default_args 200) (State 0%nat []))))
     = [ "Oscilloscope-Data/BAD.CSV"; "Oscilloscope-Data/TEK0012.CSV" ]%string.
Proof.
  destruct (generate_all_plots_stops_at_interrupt nat Interrupt.run_plot ""
              Sample.path_exists Sample.listdir (default_args 200)
              (State 0%nat [])
              (fst (generate_all_plots nat Interrupt.run_plot "" Sample.path_exists
                      Sample.listdir (default_args 200) (State 0%nat [])))
              KeyboardInterrupt)
    as [[Hls _] | (He & _)].
  - vm_compute. reflexivity.
  - vm_compute in Hls. discriminate.
  - split; [exact He | vm_compute; reflexivity].
Defined.

Lemma generate_all_plots_nothing_to_plot_witness :
  exists m,
    generate_all_plots nat Sample.run_plot "" Sample.path_exists
      (fun _ => Ok ["notes.txt"; "tek0012.csv"]%string) (default_args 200)
      (State 0%nat [])
    = (print m (State 0%nat []), Ok tt).
Proof.
  destruct (generate_all_plots_nothing_to_plot nat Sample.run_plot ""
              Sample.path_exists (fun _ => Ok ["notes.txt"; "tek0012.csv"]%string)
              (default_args 200) ["notes.txt"; "tek0012.csv"]%string (State 0%nat []))
    as (m & Hrun & _).
  - right. split; [reflexivity |].
    intros name [<- | [<- | []]]; reflexivity.
  - exists m. exact Hrun.
Defined.

(** ** The order of the batch *)

Module Order.

Lemma ascii_compare_trans_le (a b c : ascii) :
  Ascii.compare a b <> Gt -> Ascii.compare b c <> Gt -> Ascii.compare a c <> Gt.
Proof.
  unfold Ascii.compare. rewrite !N.compare_gt_iff. lia.
Qed.

Lemma ascii_compare_eq (a b : ascii) : Ascii.compare a b = Eq <-> a = b.
Proof.
  split; [apply Ascii.compare_eq_iff |].
  intros ->. unfold Ascii.compare. apply N.compare_refl.
Qed.

Lemma leb_trans (s1 s2 s3 : string) :
  String.leb s1 s2 = true -> String.leb s2 s3 = true -> String.leb s1 s3 = true.
Proof.
  unfold String.leb. revert s2 s3.
  induction s1 as [| a s1 IH]; intros [| b s2] [| c s3]; simpl; try easy.
  destruct (Ascii.compare a b) eqn:Eab; try easy;
    destruct (Ascii.compare b c) eqn:Ebc; try easy.
  - apply ascii_compare_eq in Eab, Ebc. subst.
    rewrite (proj2 (ascii_compare_eq c c) eq_refl). apply IH.
  - apply ascii_compare_eq in Eab. subst. now rewrite Ebc.
  - apply ascii_compare_eq in Ebc. subst. now rewrite Eab.
  - intros _ _.
    assert (H : Ascii.compare a c = Lt).
    { unfold Ascii.compare in *. rewrite N.compare_lt_iff in *. lia. }
    now rewrite H.
Qed.

Lemma string_le_trans : Relations_1.Transitive string_le.
Proof. intros a b c. apply leb_trans. Qed.

(** Two sorted lists with the same elements are the same list. *)
Lemma sorted_unique (l1 l2 : list string) :
  StronglySorted string_le l1 -> StronglySorted string_le l2 ->
  Permutation l1 l2 -> l1 = l2.
Proof.
  revert l2. induction l1 as [| a l1 IH]; intros l2 H1 H2 Hperm.
  - now apply Permutation_nil in Hperm.
  - destruct l2 as [| b l2].
    + symmetry in Hperm. now apply Permutation_nil in Hperm.
    + inversion H1 as [| ? ? Hs1 Ha]. inversion H2 as [| ? ? Hs2 Hb]. subst.
      assert (Eab : a = b).
      { assert (Hin_a : In a (b :: l2))
          by (apply (Permutation_in a Hperm); now left).
        assert (Hin_b : In b (a :: l1))
          by (apply (Permutation_in b (Permutation_sym Hperm)); now left).
        destruct Hin_a as [-> | Hin_a]; [reflexivity |].
        destruct Hin_b as [-> | Hin_b]; [reflexivity |].
        apply String.leb_antisym.
        - exact (proj1 (Forall_forall _ _) Ha b Hin_b).
        - exact (proj1 (Forall_forall _ _) Hb a Hin_a). }
      subst b. f_equal. apply IH; try assumption.
      now apply Permutation_cons_inv in Hperm.
Qed.

Lemma filter_perm {A : Type} (f : A -> bool) (l l' : list A) :
  Permutation l l' -> Permutation (filter f l) (filter f l').
Proof.
  induction 1 as [| x l l' _ IH | x y l | l l' l'' _ IH1 _ IH2]; simpl.
  - constructor.
  - destruct (f x); [now constructor | exact IH].
  - destruct (f x), (f y); try reflexivity. apply perm_swap.
  - now transitivity (filter f l').
Qed.

End Order.

(** X16: the list of captures depends on the names in the folder alone, not on
    the order in which [os.listdir] returns them: the batch always runs in
    the same order and the menu of [main] always shows the same numbers. *)
Theorem csv_files_of_any_listing_order (names names' : list string) :
  Permutation names names' -> csv_files_of names = csv_files_of names'.
Proof.
  intros Hperm. unfold csv_files_of.
  apply Order.sorted_unique.
  - apply Sorted_StronglySorted; [exact Order.string_le_trans | apply sort_sorted].
  - apply Sorted_StronglySorted; [exact Order.string_le_trans | apply sort_sorted].
  - rewrite <- !sort_perm. now apply Order.filter_perm.
Qed.

Lemma csv_files_of_any_listing_order_witness :
  csv_files_of ["TEK0017.CSV"; "notes.txt"; "TEK0012.CSV"]%string
  = csv_files_of ["TEK0012.CSV"; "TEK0017.CSV"; "notes.txt"]%string.
Proof.
  apply csv_files_of_any_listing_order.
  apply Permutation_cons_app with (l1 := ["TEK0012.CSV"%string]) (l2 := ["notes.txt"%string]).
  apply perm_swap.
Defined.

(** ** More on [main] *)

Module Suffix.

Lemma lower_length (s : string) : String.length (lower s) = String.length s.
Proof. induction s as [| c s IH]; simpl; [reflexivity | now rewrite IH]. Qed.

Lemma endswith_append (s t : string) : Str.endswith (s ++ t) t = true.
Proof.
  unfold Str.endswith. rewrite PathFacts.length_append.
  replace (String.length s + String.length t - String.length t)%nat
    with (String.length s) by lia.
  rewrite NamesFacts.substring_from, String.eqb_refl.
  rewrite andb_true_r. apply Nat.leb_le. lia.
Qed.

End Suffix.

Section MainMore.

Variable World : Type.
Variable run_plot : string -> plot_args -> World -> World * option exn.
Variable script_dir : string.
Variable path_exists : string -> bool.
Variable listdir : string -> result (list string).
Variable int_of_str : string -> option Z.

(** X17: a capture can be named on the command line with or without its
    [.CSV] suffix: [main] does the same for [TEK0012] as for
    [TEK0012.CSV]. *)
Theorem main_adds_csv_suffix
    (prog arg : string) (rest : list string) (typed : result string)
    (st : state World) :
  Str.endswith arg ".CSV" = false ->
  lower arg <> "all"%string ->
  main World run_plot script_dir path_exists listdir int_of_str
    (prog :: arg :: rest) typed st
  = main World run_plot script_dir path_exists listdir int_of_str
      (prog :: (arg ++ ".CSV")%string :: rest) typed st.
Proof.
  intros Hsuffix Hall. unfold main.
  rewrite Hsuffix, Suffix.endswith_append.
  destruct (String.eqb_spec (lower arg) "all") as [E | _]; [contradiction |].
  destruct (String.eqb_spec (lower (arg ++ ".CSV")) "all") as [E | _];
    [| reflexivity].
  apply (f_equal String.length) in E.
  rewrite Suffix.lower_length, PathFacts.length_append in E.
  simpl in E. lia.
Qed.

(** X18: a capture named on the command line that exists is plotted once, with
    the sensitivity 200 mV/A and every other argument at its default, and
    [main] ends as that call ends: what it raises is not caught. *)
Theorem main_plots_named_capture
    (prog arg : string) (rest : list string) (typed : result string)
    (st : state World) :
  lower arg <> "all"%string ->
  let filename :=
    Path.join script_dir
      [ "Oscilloscope-Data"%string;
        if Str.endswith arg ".CSV" then arg else (arg ++ ".CSV")%string ] in
  path_exists filename = true ->
  exists w r,
    run_plot filename (PlotArgs 200 None None None true) (world st) = (w, r)
    /\ main World run_plot script_dir path_exists listdir int_of_str
         (prog :: arg :: rest) typed st
       = (State w (log st ++ [Plot filename (PlotArgs 200 None None None true) r]),
          match r with
          | None => Ok tt
          | Some e => Raise e
          end).
Proof.
  intros Hall filename Hexists. unfold main.
  destruct (String.eqb_spec (lower arg) "all") as [E | _]; [contradiction |].
  fold filename. unfold plot_if_exists. rewrite Hexists. simpl negb. cbv iota.
  destruct (call_plot_log World run_plot filename (default_args 200) st)
    as (w & r & Ecall & Erun).
  rewrite Ecall. exists w, r. split; [exact Erun |].
  now destruct r.
Qed.

Lemma print_listing_shows (csv_files : list string) :
  forall (i0 : nat) (st : state World),
  exists shown,
    log (print_listing i0 csv_files st) = log st ++ shown
    /\ attempts shown = []
    /\ world (print_listing i0 csv_files st) = world st
    /\ forall i file,
         nth_error csv_files i = Some file ->
         In (Print (MsgListed (i0 + i) file)) shown.
Proof.
  induction csv_files as [| f rest IH]; intros i0 st; simpl.
  - exists []. rewrite app_nil_r. repeat split; auto.
    intros [| i] file; discriminate.
  - destruct (IH (S i0) (print (MsgListed i0 f) st)) as (shown & Elog & Eatt & Ew & Hin).
    exists (Print (MsgListed i0 f) :: shown).
    rewrite Elog, Ew. simpl. rewrite <- app_assoc.
    repeat split; auto.
    intros [| i] file Hnth; simpl in Hnth.
    + injection Hnth as <-. left. now rewrite Nat.add_0_r.
    + right. replace (i0 + S i)%nat with (S i0 + i)%nat by lia. now apply Hin.
Qed.

(** X19: the number shown beside a capture in the menu selects that capture:
    when it is typed and the file exists, [main] makes one call of
    [plot_voltage_and_current], on that file, with sensitivity 200 and the
    defaults, and ends as the call ends. *)
Theorem main_selects_listed_capture
    (argv : list string) (names : list string) (line : string) (i : nat)
    (file : string) (st : state World) :
  (length argv <= 1)%nat ->
  listdir (oscilloscope_data_dir script_dir) = Ok names ->
  int_of_str line = Some (Z.of_nat i) ->
  nth_error (csv_files_of names) i = Some file ->
  path_exists (csv_path script_dir file) = true ->
  exists w r shown,
    run_plot (csv_path script_dir file) (PlotArgs 200 None None None true)
      (world st) = (w, r)
    /\ main World run_plot script_dir path_exists listdir int_of_str
         argv (Ok line) st
       = (State w (log st ++ shown
                     ++ [Plot (csv_path script_dir file)
                              (PlotArgs 200 None None None true) r]),
          match r with
          | None => Ok tt
          | Some e => Raise e
          end)
    /\ In (Print (MsgListed i file)) shown
    /\ attempts shown = [].
Proof.
  intros Hargv Hls Hint Hnth Hexists.
  destruct (print_listing_shows (csv_files_of names) 0 (print MsgAvailable st))
    as (listed & Elog & Eatt & Ew & Hin).
  set (st1 := print MsgPrompt
                (print_listing 0 (csv_files_of names) (print MsgAvailable st))).
  assert (Emain :
            main World run_plot script_dir path_exists listdir int_of_str
              argv (Ok line) st
            = plot_if_exists World run_plot path_exists (csv_path script_dir file) st1).
  { assert (Hget : Py.getitem (csv_files_of names) (Z.of_nat i) = Ok file).
    { unfold Py.getitem.
      destruct (Z.ltb_spec (Z.of_nat i) 0); [lia |].
      destruct (Z.ltb_spec (Z.of_nat i) 0); [lia |].
      now rewrite Nat2Z.id, Hnth. }
    unfold main.
    destruct argv as [| prog [| arg1 rest]]; simpl in Hargv; try lia;
      rewrite Hls; unfold py_int; simpl; rewrite Hint; simpl;
      rewrite Hget; reflexivity. }
  rewrite Emain. unfold plot_if_exists. rewrite Hexists. simpl negb. cbv iota.
  destruct (call_plot_log World run_plot (csv_path script_dir file)
              (default_args 200) st1)
    as (w & r & Ecall & Erun).
  rewrite Ecall.
  assert (Ew1 : world st1 = world st) by (unfold st1; simpl; exact Ew).
  assert (Elog1 : log st1
                  = log st ++ ([Print MsgAvailable] ++ listed ++ [Print MsgPrompt])).
  { unfold st1. simpl. rewrite Elog. simpl. now rewrite <- !app_assoc. }
  exists w, r, ([Print MsgAvailable] ++ listed ++ [Print MsgPrompt]).
  rewrite <- Ew1. split; [exact Erun |]. split.
  - rewrite Elog1, <- !app_assoc. now destruct r.
  - split.
    + apply in_cons. apply (in_or_app listed [Print MsgPrompt]). left.
      exact (Hin i file Hnth).
    + rewrite !attempts_app, Eatt. reflexivity.
Qed.

(** X20: [main] catches nothing but the [ValueError] and [IndexError] of the
    selection: when listing the folder raises, or [input()] raises anything
    else (an [EOFError] at the end of the input, a [KeyboardInterrupt]),
    [main] ends in that exception, having made no plot. *)
Theorem main_lets_other_errors_through
    (argv : list string) (typed : result string) (e : exn) (st : state World) :
  (length argv <= 1)%nat ->
  listdir (oscilloscope_data_dir script_dir) = Raise e
  \/ (exists names, listdir (oscilloscope_data_dir script_dir) = Ok names)
     /\ typed = Raise e /\ e <> ValueError /\ e <> IndexError ->
  exists st',
    main World run_plot script_dir path_exists listdir int_of_str argv typed st
    = (st', Raise e)
    /\ world st' = world st
    /\ attempts (log st') = attempts (log st).
Proof.
  intros Hargv Hcase.
  assert (Emain :
            main World run_plot script_dir path_exists listdir int_of_str
              argv typed st
            = main World run_plot script_dir path_exists listdir int_of_str
                [] typed st).
  { destruct argv as [| prog [| arg1 rest]]; simpl in Hargv; try lia; reflexivity. }
  rewrite Emain. unfold main.
  destruct Hcase as [Hls | ([names Hls] & -> & Hv & Hi)]; rewrite Hls.
  - eexists. split; [reflexivity |]. simpl.
    rewrite attempts_app. simpl. now rewrite app_nil_r.
  - destruct (menu_log World names st) as (shown & Elog & Eatt & Ew).
    simpl bind.
    destruct e; try contradiction;
      (eexists; split; [reflexivity |]; split; [exact Ew |];
       rewrite Elog, attempts_app, Eatt; now rewrite app_nil_r).
Qed.

End MainMore.

Lemma main_adds_csv_suffix_witness :
  main nat Sample.run_plot "" Sample.path_exists Sample.listdir Sample.int_of_str
    ["plot.py"; "TEK0012"]%string (Ok ""%string) (State 0%nat [])
  = main nat Sample.run_plot "" Sample.path_exists Sample.listdir Sample.int_of_str
      ["plot.py"; "TEK0012.CSV"]%string (Ok ""%string) (State 0%nat []).
Proof.
  apply (main_adds_csv_suffix nat Sample.run_plot "" Sample.path_exists
           Sample.listdir Sample.int_of_str "plot.py" "TEK0012" []);
    [reflexivity | discriminate].
Defined.

Lemma main_plots_named_capture_witness :
  exists w r,
    main nat Sample.run_plot "" Sample.path_exists Sample.listdir Sample.int_of_str
      ["plot.py"; "TEK0012"]%string (Ok ""%string) (State 0%nat [])
    = (State w [Plot "Oscilloscope-Data/TEK0012.CSV"
                     (PlotArgs 200 None None None true) r],
       match r with
       | None => Ok tt
       | Some e => Raise e
       end).
Proof.
  pose proof (main_plots_named_capture nat Sample.run_plot "" Sample.path_exists
                Sample.listdir Sample.int_of_str "plot.py" "TEK0012" []
                (Ok ""%string) (State 0%nat [])) as H.
  cbv zeta in H.
  destruct H as (w & r & _ & Hmain); [discriminate | reflexivity |].
  exists w, r. exact Hmain.
Defined.

Lemma main_selects_listed_capture_witness :
  exists w r shown,
    main nat Sample.run_plot "" Sample.path_exists Sample.listdir Sample.int_of_str
      ["plot.py"]%string (Ok "1"%string) (State 0%nat [])
    = (State w (shown ++ [Plot "Oscilloscope-Data/TEK0012.CSV"
                               (PlotArgs 200 None None None true) r]),
       match r with
       | None => Ok tt
       | Some e => Raise e
       end)
    /\ In (Print (MsgListed 1 "TEK0012.CSV")) shown.
Proof.
  pose proof (main_selects_listed_capture nat Sample.run_plot ""
                Sample.path_exists Sample.listdir Sample.int_of_str
                ["plot.py"]%string Sample.folder "1"%string 1%nat
                "TEK0012.CSV"%string (State 0%nat [])) as H.
  destruct H as (w & r & shown & _ & Hmain & Hin & _);
    [simpl; lia | reflexivity | reflexivity | vm_compute; reflexivity
    | vm_compute; reflexivity |].
  exists w, r, shown. split; [exact Hmain | exact Hin].
Defined.

Lemma main_lets_other_errors_through_witness :
  exists st',
    main nat Sample.run_plot "" Sample.path_exists Sample.listdir Sample.int_of_str
      ["plot.py"]%string (Raise EOFError) (State 0%nat [])
    = (st', Raise EOFError)
    /\ attempts (log st') = [].
Proof.
  destruct (main_lets_other_errors_through nat Sample.run_plot ""
              Sample.path_exists Sample.listdir Sample.int_of_str
              ["plot.py"]%string (Raise EOFError) EOFError (State 0%nat []))
    as (st' & Hmain & _ & Hatt).
  - simpl. lia.
  - right. split; [exists Sample.folder; reflexivity |].
    split; [reflexivity |]. split; discriminate.
  - exists st'. split; [exact Hmain | exact Hatt].
Defined.


(** ** The script as a whole *)

Section ScriptMore.

Variable World : Type.
Variable run_plot : string -> plot_args -> World -> World * option exn.
Variable script_dir : string.
Variable path_exists : string -> bool.
Variable listdir : string -> result (list string).
Variable int_of_str : string -> option Z.

(** Calls in a row: all of them when none raises, those up to the first that
    raises otherwise; nothing is printed. *)
Lemma run_calls_outcome (calls : list (string * plot_args)) :
  forall st : state World,
  exists new,
    log (fst (run_calls World run_plot calls st)) = log st ++ new
    /\ reported new = []
    /\ match snd (run_calls World run_plot calls st) with
       | Ok _ => attempts new = map fst calls /\ failures new = []
       | Raise e =>
           exists done call rest,
             calls = done ++ call :: rest
             /\ attempts new = map fst (done ++ [call])
             /\ failures new = [(fst call, e)]
       end.
Proof.
  induction calls as [| [filename args] rest IH]; intros st; cbn [run_calls].
  - exists []. simpl. now rewrite app_nil_r.
  - destruct (call_plot_log World run_plot filename args st)
      as (w & r & Ecall & _).
    rewrite Ecall. destruct r as [e |].
    + exists [Plot filename args (Some e)]. cbn [fst snd log].
      split; [reflexivity |]. split; [reflexivity |].
      exists [], (filename, args), rest. repeat split.
    + destruct (IH (State w (log st ++ [Plot filename args None])))
        as (new & Elog & Hrep & Hout).
      exists (Plot filename args None :: new).
      split; [rewrite Elog; cbn [log]; now rewrite <- app_assoc |].
      split; [exact Hrep |].
      destruct (snd (run_calls World run_plot rest _)) as [u | e].
      * destruct Hout as [Hatt Hfail]. simpl. now rewrite Hatt, Hfail.
      * destruct Hout as (done & call & rest' & -> & Hatt & Hfail).
        exists ((filename, args) :: done), call, rest'.
        simpl. now rewrite Hatt, Hfail.
Qed.

(** X21: every run of the script first makes the three calls at the end of
    the file, on [Oscilloscope-Data/TEK0012.CSV] and twice on
    [Oscilloscope-Data/TEK0017.CSV], relative to the working directory,
    whatever the command line.  [main] runs only when all three returned
    normally; when one raises, the script ends in that exception and nothing
    else is plotted or printed. *)
Theorem script_runs_presets_before_main
    (argv : list string) (typed : result string) (st : state World) :
  let presets :=
    [ "Oscilloscope-Data/TEK0012.CSV"; "Oscilloscope-Data/TEK0017.CSV";
      "Oscilloscope-Data/TEK0017.CSV" ]%string in
  let run := run_script World run_plot script_dir path_exists listdir
               int_of_str argv typed st in
  (exists st3,
      run = main World run_plot script_dir path_exists listdir int_of_str
              argv typed st3
      /\ exists new,
           log st3 = log st ++ new
           /\ attempts new = presets
           /\ failures new = []
           /\ reported new = [])
  \/ (exists e new done filename rest,
         snd run = Raise e
         /\ log (fst run) = log st ++ new
         /\ presets = done ++ filename :: rest
         /\ attempts new = done ++ [filename]
         /\ failures new = [(filename, e)]
         /\ reported new = []).
Proof.
  intros presets run. unfold run, run_script.
  destruct (run_calls_outcome preset_calls st) as (new & Elog & Hrep & Hout).
  destruct (run_calls World run_plot preset_calls st) as [st3 [u | e]];
    cbn [fst snd] in *.
  - left. exists st3. split; [reflexivity |].
    exists new. destruct Hout as [Hatt Hfail]. auto.
  - right. destruct Hout as (done & call & rest & Ecalls & Hatt & Hfail).
    exists e, new, (map fst done), (fst call), (map fst rest).
    split; [reflexivity |]. split; [exact Elog |]. split.
    + change presets with (map fst preset_calls).
      rewrite Ecalls, map_app. reflexivity.
    + rewrite Hatt, map_app. auto.
Qed.

End ScriptMore.

(** ** [plot_voltage_and_current] with its files, figures and messages *)

Lemma saved_app (l1 l2 : list output) : saved (l1 ++ l2) = saved l1 ++ saved l2.
Proof. apply flat_map_app. Qed.

Lemma messages_app (l1 l2 : list output) :
  messages (l1 ++ l2) = messages l1 ++ messages l2.
Proof. apply flat_map_app. Qed.

Lemma select_mask (f : float -> bool) (time : list float) :
  forall data,
    length data = length time ->
    exists inside,
      select data (map f time) = Ok inside
      /\ (inside = [] <-> forallb (fun t => negb (f t)) time = true).
Proof.
  induction time as [| t time IH]; intros [| x data] Hlen; simpl in *; try lia.
  - exists []. now split.
  - destruct (IH data ltac:(lia)) as (inside & -> & Hiff). simpl.
    destruct (f t); simpl.
    + eexists. split; [reflexivity |]. split; [discriminate | discriminate].
    + exists inside. split; [reflexivity | exact Hiff].
Qed.

Section PlotIOFacts.

Variable World : Type.
Variable read_file : string -> World -> result (list string).
Variable mpl : mpl_call -> World -> World * option exn.
Variable float_of_str : string -> option float.
Variable amin amax : list float -> float.

Hypothesis Hquiet : mpl_quiet World mpl.

Lemma bind_ok {A B : Type} (c : io World A) (k : A -> io World B)
    (st st1 : pstate World) (a : A) :
  c st = (st1, Ok a) -> io_bind World c k st = k a st1.
Proof. intros E. unfold io_bind. now rewrite E. Qed.

Lemma bind_raise {A B : Type} (c : io World A) (k : A -> io World B)
    (st st1 : pstate World) (e : exn) :
  c st = (st1, Raise e) -> io_bind World c k st = (st1, Raise e).
Proof. intros E. unfold io_bind. now rewrite E. Qed.

Lemma call_quiet (c : mpl_call) (st : pstate World) :
  call World mpl c st
  = (PState World (fst (mpl c (pworld World st))) (shown World st ++ [Called c None]),
     Ok tt).
Proof.
  unfold call. pose proof (Hquiet c (pworld World st)) as Hc.
  destruct (mpl c (pworld World st)) as [w r]. simpl in *. now subst r.
Qed.

(** The limits of a figure: nothing is saved or printed, and the step ends in
    [ValueError] exactly when the window is set and holds no sample. *)
Lemma set_limits_quiet (fig : figure) (time data : list float)
    (time_min time_max : option float) (st : pstate World) :
  length data = length time ->
  exists w new,
    set_limits World mpl amin amax fig time data time_min time_max st
    = (PState World w (shown World st ++ new),
       if window_empty time_min time_max time then Raise ValueError else Ok tt)
    /\ saved new = []
    /\ messages new = [].
Proof.
  intros Hlen.
  assert (Hgen :
    (time_min <> None \/ time_max <> None) ->
    exists w new,
      (io_bind World (call World mpl (SetXlim fig time_min time_max))
         (fun _ =>
            io_bind World (lift World (select data (map (in_window time_min time_max) time)))
              (fun inside =>
                 io_bind World (lift World (reduce_min amin inside))
                   (fun lo =>
                      io_bind World
                        (lift World (select data (map (in_window time_min time_max) time)))
                        (fun inside0 =>
                           io_bind World (lift World (reduce_max amax inside0))
                             (fun hi =>
                                call World mpl
                                  (SetYlim fig (lo * 0.95)%float (hi * 1.05)%float))))))) st
      = (PState World w (shown World st ++ new),
         if forallb (fun t => negb (in_window time_min time_max t)) time
         then Raise ValueError else Ok tt)
      /\ saved new = [] /\ messages new = []).
  { intros _.
    destruct (select_mask (in_window time_min time_max) time data Hlen)
      as (inside & Esel & Hiff).
    rewrite (bind_ok _ _ _ _ _ (call_quiet _ st)).
    unfold io_bind at 1, lift at 1. rewrite Esel.
    destruct inside as [| x inside].
    - rewrite (proj1 Hiff eq_refl). unfold io_bind, lift. simpl.
      eexists _, [_]. split; [reflexivity |]. now split.
    - destruct (forallb _ time) eqn:Eall;
        [discriminate (proj2 Hiff eq_refl) |].
      unfold io_bind, lift, reduce_min, reduce_max.
      rewrite call_quiet. cbn [shown pworld].
      eexists _, [_; _]. rewrite <- app_assoc. split; [reflexivity |]. now split. }
  unfold set_limits, window_empty.
  destruct time_min as [lo |], time_max as [hi |];
    try (apply Hgen; (left; discriminate) || (right; discriminate)).
  exists (pworld World st), []. unfold io_ret. rewrite app_nil_r.
  destruct st. now split.
Qed.

(** One figure: it is saved, and said to be, unless its window is empty. *)
Lemma make_figure_quiet (fig : figure) (time raw smooth : list float)
    (args : plot_args) (title : caption) (test_number path : string)
    (st : pstate World) :
  length raw = length time ->
  exists w new,
    make_figure World mpl amin amax fig time raw smooth args title test_number path
      st
    = (PState World w (shown World st ++ new),
       if window_empty (arg_time_min args) (arg_time_max args) time
       then Raise ValueError else Ok tt)
    /\ saved new
       = (if window_empty (arg_time_min args) (arg_time_max args) time
          then [] else [path])
    /\ messages new
       = (if window_empty (arg_time_min args) (arg_time_max args) time
          then [] else [SaidSaved fig path]).
Proof.
  intros Hlen. unfold make_figure.
  rewrite (bind_ok _ _ _ _ _ (call_quiet _ st)).
  destruct (set_limits_quiet fig time raw (arg_time_min args) (arg_time_max args)
              (PState World
                 (fst (mpl (Draw fig time raw
                              (if arg_show_smoothed args then Some smooth else None)
                              title test_number) (pworld World st)))
                 (shown World st
                    ++ [Called (Draw fig time raw
                                  (if arg_show_smoothed args then Some smooth else None)
                                  title test_number) None])) Hlen)
    as (w & new & Elim & Hsaved & Hsaid).
  cbn [shown pworld] in Elim.
  destruct (window_empty (arg_time_min args) (arg_time_max args) time).
  - rewrite (bind_raise _ _ _ _ _ Elim).
    eexists w, (_ :: new). rewrite <- app_assoc. split; [reflexivity |].
    simpl. now rewrite Hsaved, Hsaid.
  - rewrite (bind_ok _ _ _ _ _ Elim).
    rewrite (bind_ok _ _ _ _ _ (call_quiet _ _)).
    unfold io_bind at 1, say at 1. rewrite call_quiet. cbn [shown pworld].
    eexists _, (_ :: new ++ [_; _; _]).
    split.
    + rewrite <- !app_assoc. reflexivity.
    + simpl. rewrite saved_app, messages_app, Hsaved, Hsaid. now split.
Qed.

End PlotIOFacts.

Section PlotIOClaims.

Variable World : Type.
Variable read_file : string -> World -> result (list string).
Variable mpl : mpl_call -> World -> World * option exn.
Variable float_of_str : string -> option float.
Variable amin amax : list float -> float.

Hypothesis Hquiet : mpl_quiet World mpl.

Lemma say_range_nonempty (a : list float) (m : float -> float -> said)
    (st : pstate World) :
  a <> [] ->
  say_range World amin amax a m st
  = (PState World (pworld World st) (shown World st ++ [Said (m (amin a) (amax a))]),
     Ok tt).
Proof.
  intros Ha. destruct a as [| x a]; [congruence |]. reflexivity.
Qed.

Lemma nonempty_length {A B : Type} (l : list A) (l' : list B) :
  length l = length l' -> l' <> [] -> l <> [].
Proof. intros Hlen Hne ->. destruct l'; [congruence | discriminate]. Qed.

Lemma plot_io_window_case
    (filename : string) (args : plot_args) (lines : list string)
    (st : pstate World) :
  read_file filename (pworld World st) = Ok lines ->
  window_empty (arg_time_min args) (arg_time_max args) (times_of float_of_str lines) = true ->
  exists w new,
    plot_io World read_file mpl float_of_str amin amax filename args st
    = (PState World w (shown World st ++ new), Raise ValueError)
    /\ saved new = []
    /\ messages new = [].
Proof.
  intros Hread Hwin. unfold plot_io, times_of in *.
  rewrite (bind_ok World (open_and_read World read_file filename) _ st st lines)
    by (unfold open_and_read; now rewrite Hread).
  destruct (plot_shape float_of_str filename lines (arg_sensitivity_mv_per_a args))
    as (r & Hr & Htime & Lv & _).
  rewrite (bind_ok World _ _ st st r) by (unfold lift; now rewrite Hr).
  destruct (make_figure_quiet World mpl amin amax Hquiet VoltageFigure (time r)
              (voltage r) (voltage_smooth r) args
              (VoltageTitle (Path.basename filename) (voltage_offset r))
              (Names.test_number filename)
              (Names.voltage_filename filename (arg_output_filename args)) st Lv)
    as (w & new & Efig & Hsaved & Hsaid).
  rewrite Htime, Hwin in *.
  rewrite (bind_raise World _ _ _ _ _ Efig).
  now exists w, new.
Qed.

(** X22: when a time window is given and no sample of the capture lies in it
    (an empty capture included), the function ends in [ValueError], raised by
    the [min()] of the empty selection, before any figure is saved and before
    anything is printed. *)
Theorem plot_io_no_sample_in_window
    (filename : string) (args : plot_args) (lines : list string)
    (st : pstate World) :
  read_file filename (pworld World st) = Ok lines ->
  window_empty (arg_time_min args) (arg_time_max args) (times_of float_of_str lines) = true ->
  exists w new,
    plot_io World read_file mpl float_of_str amin amax filename args st
    = (PState World w (shown World st ++ new), Raise ValueError)
    /\ saved new = []
    /\ messages new = [].
Proof. exact (plot_io_window_case filename args lines st). Qed.

Lemma plot_io_empty_case
    (filename : string) (args : plot_args) (lines : list string)
    (st : pstate World) :
  read_file filename (pworld World st) = Ok lines ->
  (forall line, In line lines -> well_formed_row float_of_str line = false) ->
  arg_time_min args = None ->
  arg_time_max args = None ->
  exists w new,
    plot_io World read_file mpl float_of_str amin amax filename args st
    = (PState World w (shown World st ++ new), Raise ValueError)
    /\ saved new
       = [ Names.voltage_filename filename (arg_output_filename args);
           Names.current_filename filename (arg_output_filename args) ]
    /\ messages new
       = [ SaidSaved VoltageFigure
             (Names.voltage_filename filename (arg_output_filename args));
           SaidSaved CurrentFigure
             (Names.current_filename filename (arg_output_filename args));
           SaidFile filename ].
Proof.
  intros Hread Hnone Hmin Hmax. unfold plot_io.
  rewrite (bind_ok World (open_and_read World read_file filename) _ st st lines)
    by (unfold open_and_read; now rewrite Hread).
  destruct (plot_shape float_of_str filename lines (arg_sensitivity_mv_per_a args))
    as (r & Hr & Htime & Lv & _ & Lc & _).
  rewrite (bind_ok World _ _ st st r) by (unfold lift; now rewrite Hr).
  assert (Hempty : time r = []).
  { rewrite Htime.
    replace (filter (well_formed_row float_of_str) lines) with (@nil string);
      [reflexivity |].
    symmetry. clear - Hnone. induction lines as [| l lines IH]; [reflexivity |].
    simpl. rewrite (Hnone l) by now left.
    apply IH. intros l' Hl'. apply Hnone. now right. }
  destruct (make_figure_quiet World mpl amin amax Hquiet VoltageFigure (time r)
              (voltage r) (voltage_smooth r) args
              (VoltageTitle (Path.basename filename) (voltage_offset r))
              (Names.test_number filename)
              (Names.voltage_filename filename (arg_output_filename args)) st Lv)
    as (w1 & new1 & Efig1 & Hsaved1 & Hsaid1).
  rewrite Hmin, Hmax in Efig1, Hsaved1, Hsaid1. cbn [window_empty] in *.
  rewrite (bind_ok World _ _ _ _ _ Efig1).
  destruct (make_figure_quiet World mpl amin amax Hquiet CurrentFigure (time r)
              (current r) (current_smooth r) args
              (CurrentTitle (arg_sensitivity_mv_per_a args) (arg_show_smoothed args))
              (Names.test_number filename)
              (Names.current_filename filename (arg_output_filename args))
              (PState World w1 (shown World st ++ new1)) Lc)
    as (w2 & new2 & Efig2 & Hsaved2 & Hsaid2).
  rewrite Hmin, Hmax in Efig2, Hsaved2, Hsaid2. cbn [window_empty shown] in *.
  rewrite (bind_ok World _ _ _ _ _ Efig2).
  unfold io_bind at 1, say at 1. cbn [shown pworld].
  rewrite Hempty. unfold io_bind, say_range, lift, reduce_min.
  exists w2, (new1 ++ new2 ++ [Said (SaidFile filename)]).
  rewrite <- !app_assoc. split; [reflexivity |].
  rewrite !saved_app, !messages_app, Hsaved1, Hsaved2, Hsaid1, Hsaid2.
  now split.
Qed.

(** X23: a capture without a single well-formed row, plotted without a time
    window, has both its figures saved, empty, and then ends in [ValueError]
    at the first line of the statistics: the file name is the last thing
    printed. *)
Theorem plot_io_empty_capture
    (filename : string) (args : plot_args) (lines : list string)
    (st : pstate World) :
  read_file filename (pworld World st) = Ok lines ->
  (forall line, In line lines -> well_formed_row float_of_str line = false) ->
  arg_time_min args = None ->
  arg_time_max args = None ->
  exists w new,
    plot_io World read_file mpl float_of_str amin amax filename args st
    = (PState World w (shown World st ++ new), Raise ValueError)
    /\ saved new
       = [ Names.voltage_filename filename (arg_output_filename args);
           Names.current_filename filename (arg_output_filename args) ]
    /\ messages new
       = [ SaidSaved VoltageFigure
             (Names.voltage_filename filename (arg_output_filename args));
           SaidSaved CurrentFigure
             (Names.current_filename filename (arg_output_filename args));
           SaidFile filename ].
Proof. exact (plot_io_empty_case filename args lines st). Qed.

Lemma plot_io_plotted_case
    (filename : string) (args : plot_args) (lines : list string)
    (st : pstate World) :
  read_file filename (pworld World st) = Ok lines ->
  times_of float_of_str lines <> [] ->
  window_empty (arg_time_min args) (arg_time_max args) (times_of float_of_str lines) = false ->
  exists w new r,
    plot_io World read_file mpl float_of_str amin amax filename args st
    = (PState World w (shown World st ++ new), Ok tt)
    /\ plot_voltage_and_current float_of_str filename lines
         (arg_sensitivity_mv_per_a args) = Ok r
    /\ saved new
       = [ Names.voltage_filename filename (arg_output_filename args);
           Names.current_filename filename (arg_output_filename args) ]
    /\ messages new
       = [ SaidSaved VoltageFigure
             (Names.voltage_filename filename (arg_output_filename args));
           SaidSaved CurrentFigure
             (Names.current_filename filename (arg_output_filename args));
           SaidFile filename;
           SaidTimeRange (amin (time r)) (amax (time r));
           SaidRange VoltageFigure false (amin (voltage r)) (amax (voltage r));
           SaidRange VoltageFigure true
             (amin (voltage_smooth r)) (amax (voltage_smooth r));
           SaidRange CurrentFigure false (amin (current r)) (amax (current r));
           SaidRange CurrentFigure true
             (amin (current_smooth r)) (amax (current_smooth r));
           SaidDataPoints (length (time r));
           SaidWindow ].
Proof.
  intros Hread Hsome Hwin. unfold plot_io, times_of in *.
  rewrite (bind_ok World (open_and_read World read_file filename) _ st st lines)
    by (unfold open_and_read; now rewrite Hread).
  destruct (plot_shape float_of_str filename lines (arg_sensitivity_mv_per_a args))
    as (r & Hr & Htime & Lv & Lvs & Lc & Lcs).
  rewrite (bind_ok World _ _ st st r) by (unfold lift; now rewrite Hr).
  rewrite <- Htime in Hsome, Hwin.
  destruct (make_figure_quiet World mpl amin amax Hquiet VoltageFigure (time r)
              (voltage r) (voltage_smooth r) args
              (VoltageTitle (Path.basename filename) (voltage_offset r))
              (Names.test_number filename)
              (Names.voltage_filename filename (arg_output_filename args)) st Lv)
    as (w1 & new1 & Efig1 & Hsaved1 & Hsaid1).
  rewrite Hwin in Efig1, Hsaved1, Hsaid1.
  rewrite (bind_ok World _ _ _ _ _ Efig1).
  destruct (make_figure_quiet World mpl amin amax Hquiet CurrentFigure (time r)
              (current r) (current_smooth r) args
              (CurrentTitle (arg_sensitivity_mv_per_a args) (arg_show_smoothed args))
              (Names.test_number filename)
              (Names.current_filename filename (arg_output_filename args))
              (PState World w1 (shown World st ++ new1)) Lc)
    as (w2 & new2 & Efig2 & Hsaved2 & Hsaid2).
  rewrite Hwin in Efig2, Hsaved2, Hsaid2. cbn [shown] in *.
  rewrite (bind_ok World _ _ _ _ _ Efig2).
  unfold io_bind at 1, say at 1. cbn [shown pworld].
  rewrite (bind_ok World _ _ _ _ _ (say_range_nonempty (time r) _ _ Hsome)).
  rewrite (bind_ok World _ _ _ _ _
             (say_range_nonempty (voltage r) _ _ (nonempty_length _ _ Lv Hsome))).
  rewrite (bind_ok World _ _ _ _ _
             (say_range_nonempty (voltage_smooth r) _ _
                (nonempty_length _ _ Lvs Hsome))).
  rewrite (bind_ok World _ _ _ _ _
             (say_range_nonempty (current r) _ _ (nonempty_length _ _ Lc Hsome))).
  rewrite (bind_ok World _ _ _ _ _
             (say_range_nonempty (current_smooth r) _ _
                (nonempty_length _ _ Lcs Hsome))).
  unfold io_bind, say. cbn [shown pworld].
  exists w2,
    (new1 ++ new2
       ++ [ Said (SaidFile filename);
            Said (SaidTimeRange (amin (time r)) (amax (time r)));
            Said (SaidRange VoltageFigure false (amin (voltage r)) (amax (voltage r)));
            Said (SaidRange VoltageFigure true
                    (amin (voltage_smooth r)) (amax (voltage_smooth r)));
            Said (SaidRange CurrentFigure false (amin (current r)) (amax (current r)));
            Said (SaidRange CurrentFigure true
                    (amin (current_smooth r)) (amax (current_smooth r)));
            Said (SaidDataPoints (length (time r)));
            Said SaidWindow ]), r.
  split; [rewrite <- !app_assoc; reflexivity |].
  split; [exact Hr |].
  rewrite !saved_app, !messages_app, Hsaved1, Hsaved2, Hsaid1, Hsaid2.
  now split.
Qed.

(** X24: a capture with a sample in the time window (or any sample, without a
    window) is plotted to the end: the function returns normally, having saved
    the voltage figure and then the current figure under their two names, and
    printed the two notices, the file name, the five ranges, the number of
    samples and the window. *)
Theorem plot_io_succeeds
    (filename : string) (args : plot_args) (lines : list string)
    (st : pstate World) :
  read_file filename (pworld World st) = Ok lines ->
  times_of float_of_str lines <> [] ->
  window_empty (arg_time_min args) (arg_time_max args) (times_of float_of_str lines) = false ->
  exists w new r,
    plot_io World read_file mpl float_of_str amin amax filename args st
    = (PState World w (shown World st ++ new), Ok tt)
    /\ plot_voltage_and_current float_of_str filename lines
         (arg_sensitivity_mv_per_a args) = Ok r
    /\ saved new
       = [ Names.voltage_filename filename (arg_output_filename args);
           Names.current_filename filename (arg_output_filename args) ]
    /\ messages new
       = [ SaidSaved VoltageFigure
             (Names.voltage_filename filename (arg_output_filename args));
           SaidSaved CurrentFigure
             (Names.current_filename filename (arg_output_filename args));
           SaidFile filename;
           SaidTimeRange (amin (time r)) (amax (time r));
           SaidRange VoltageFigure false (amin (voltage r)) (amax (voltage r));
           SaidRange VoltageFigure true
             (amin (voltage_smooth r)) (amax (voltage_smooth r));
           SaidRange CurrentFigure false (amin (current r)) (amax (current r));
           SaidRange CurrentFigure true
             (amin (current_smooth r)) (amax (current_smooth r));
           SaidDataPoints (length (time r));
           SaidWindow ].
Proof. exact (plot_io_plotted_case filename args lines st). Qed.

(** Without a sample the function raises [ValueError], with a window and
    without. *)
Lemma plot_io_raises_without_samples
    (filename : string) (args : plot_args) (lines : list string)
    (st : pstate World) :
  read_file filename (pworld World st) = Ok lines ->
  (forall line, In line lines -> well_formed_row float_of_str line = false) ->
  snd (plot_io World read_file mpl float_of_str amin amax filename args st)
  = Raise ValueError.
Proof.
  intros Hread Hnone.
  assert (Hempty : times_of float_of_str lines = []).
  { unfold times_of.
    replace (filter (well_formed_row float_of_str) lines) with (@nil string);
      [reflexivity |].
    symmetry. clear - Hnone. induction lines as [| l lines IH]; [reflexivity |].
    simpl. rewrite (Hnone l) by now left.
    apply IH. intros l' Hl'. apply Hnone. now right. }
  destruct (arg_time_min args) as [lo |] eqn:Emin.
  - destruct (plot_io_window_case filename args lines st Hread)
      as (w & new & -> & _); [| reflexivity].
    rewrite Emin, Hempty. now destruct (arg_time_max args).
  - destruct (arg_time_max args) as [hi |] eqn:Emax.
    + destruct (plot_io_window_case filename args lines st Hread)
        as (w & new & -> & _); [| reflexivity].
      now rewrite Emin, Emax, Hempty.
    + destruct (plot_io_empty_case filename args lines st Hread Hnone Emin Emax)
        as (w & new & -> & _). reflexivity.
Qed.

End PlotIOClaims.

Lemma sample_mpl_quiet : mpl_quiet nat SampleIO.mpl.
Proof. intros c w. reflexivity. Qed.

Lemma plot_io_no_sample_in_window_witness :
  exists w new,
    plot_io nat SampleIO.read_file SampleIO.mpl Sample.float_of_str
      SampleIO.amin SampleIO.amax "Oscilloscope-Data/TEK0017.CSV"
      (PlotArgs 200 (Some 0.0292%float) (Some 0.0400%float)
                (Some "TEK0017_capacitor_spike"%string) false)
      (PState nat 0%nat [])
    = (PState nat w new, Raise ValueError)
    /\ saved new = [].
Proof.
  destruct (plot_io_no_sample_in_window nat SampleIO.read_file SampleIO.mpl
              Sample.float_of_str SampleIO.amin SampleIO.amax sample_mpl_quiet
              "Oscilloscope-Data/TEK0017.CSV"
              (PlotArgs 200 (Some 0.0292%float) (Some 0.0400%float)
                        (Some "TEK0017_capacitor_spike"%string) false)
              Sample.spike_rows (PState nat 0%nat []))
    as (w & new & Hrun & Hsaved & _).
  - reflexivity.
  - vm_compute. reflexivity.
  - exists w, new. split; [exact Hrun | exact Hsaved].
Defined.

Lemma plot_io_empty_capture_witness :
  exists w new,
    plot_io nat SampleIO.read_file SampleIO.mpl Sample.float_of_str
      SampleIO.amin SampleIO.amax "Oscilloscope-Data/TEK0001.CSV"
      (default_args 200) (PState nat 0%nat [])
    = (PState nat w new, Raise ValueError)
    /\ saved new = ["TEK0001_voltage.png"; "TEK0001_current.png"]%string.
Proof.
  destruct (plot_io_empty_capture nat SampleIO.read_file SampleIO.mpl
              Sample.float_of_str SampleIO.amin SampleIO.amax sample_mpl_quiet
              "Oscilloscope-Data/TEK0001.CSV" (default_args 200)
              ["Record Length,2500"; "Source,CH1"]%string (PState nat 0%nat []))
    as (w & new & Hrun & Hsaved & _).
  - reflexivity.
  - intros line [<- | [<- | []]]; vm_compute; reflexivity.
  - reflexivity.
  - reflexivity.
  - exists w, new. split; [exact Hrun |]. rewrite Hsaved. vm_compute. reflexivity.
Defined.

Lemma plot_io_succeeds_witness :
  exists w new,
    plot_io nat SampleIO.read_file SampleIO.mpl Sample.float_of_str
      SampleIO.amin SampleIO.amax "Oscilloscope-Data/TEK0017.CSV"
      (default_args 200) (PState nat 0%nat [])
    = (PState nat w new, Ok tt)
    /\ saved new = ["TEK0017_voltage.png"; "TEK0017_current.png"]%string.
Proof.
  destruct (plot_io_succeeds nat SampleIO.read_file SampleIO.mpl
              Sample.float_of_str SampleIO.amin SampleIO.amax sample_mpl_quiet
              "Oscilloscope-Data/TEK0017.CSV" (default_args 200)
              Sample.spike_rows (PState nat 0%nat []))
    as (w & new & r & Hrun & _ & Hsaved & _).
  - reflexivity.
  - vm_compute. discriminate.
  - reflexivity.
  - exists w, new. split; [exact Hrun |]. rewrite Hsaved. vm_compute. reflexivity.
Defined.

(** ** A batch of real plots *)

Section BatchReports.

Variable World : Type.
Variable run_plot : string -> plot_args -> World -> World * option exn.
Variable script_dir : string.

(** A file whose plot always raises [e] is named in an error message. *)
Lemma batch_loop_reports (args : plot_args) (n : nat) (f : string) (e : exn)
    (csv_files : list string) :
  raises_only_Exception World run_plot ->
  (forall w, snd (run_plot (csv_path script_dir f) args w) = Some e) ->
  In f csv_files ->
  forall (i : nat) (st : state World),
  exists new,
    log (fst (batch_loop World run_plot script_dir args n i csv_files st))
    = log st ++ new
    /\ In (f, e) (reported new).
Proof.
  intros Hexn Hf.
  induction csv_files as [| c rest IH]; intros Hin i st; [destruct Hin |].
  cbn [batch_loop].
  destruct (call_plot_log World run_plot (csv_path script_dir c) args
              (print (MsgProcessing (i + 1) n c) st))
    as (w & r & Ecall & Erun).
  rewrite Ecall. cbn [log print] in *.
  destruct (string_dec c f) as [-> | Hne].
  - pose proof (Hf (world st)) as Hr.
    cbn [world print] in Erun. rewrite Erun in Hr. simpl in Hr. subst r.
    rewrite (Hexn _ _ _ e (f_equal snd Erun)).
    destruct (batch_loop_outcome World run_plot script_dir args n rest (S i)
                (print (MsgErrorProcessing f e)
                   (State w ((log st ++ [Print (MsgProcessing (i + 1) n f)])
                             ++ [Plot (csv_path script_dir f) args (Some e)]))))
      as (new & Elog & _).
    exists ([Print (MsgProcessing (i + 1) n f);
             Plot (csv_path script_dir f) args (Some e);
             Print (MsgErrorProcessing f e)] ++ new).
    split; [rewrite Elog; cbn [log print]; now rewrite <- !app_assoc |].
    rewrite reported_app. apply in_or_app. left. now left.
  - destruct Hin as [-> | Hin]; [congruence |].
    destruct r as [e' |].
    + rewrite (Hexn _ _ _ e' (f_equal snd Erun)).
      destruct (IH Hin (S i)
                  (print (MsgErrorProcessing c e')
                     (State w ((log st ++ [Print (MsgProcessing (i + 1) n c)])
                               ++ [Plot (csv_path script_dir c) args (Some e')]))))
        as (new & Elog & Hrep).
      exists ([Print (MsgProcessing (i + 1) n c);
               Plot (csv_path script_dir c) args (Some e');
               Print (MsgErrorProcessing c e')] ++ new).
      split; [rewrite Elog; cbn [log print]; now rewrite <- !app_assoc |].
      rewrite reported_app. apply in_or_app. now right.
    + destruct (IH Hin (S i)
                  (State w ((log st ++ [Print (MsgProcessing (i + 1) n c)])
                            ++ [Plot (csv_path script_dir c) args None])))
        as (new & Elog & Hrep).
      exists ([Print (MsgProcessing (i + 1) n c);
               Plot (csv_path script_dir c) args None] ++ new).
      split; [rewrite Elog; cbn [log]; now rewrite <- !app_assoc |].
      rewrite reported_app. apply in_or_app. now right.
Qed.

End BatchReports.

Section BatchOfPlots.

Variable World : Type.
Variable read_file : string -> World -> result (list string).
Variable mpl : mpl_call -> World -> World * option exn.
Variable float_of_str : string -> option float.
Variable amin amax : list float -> float.
Variable script_dir : string.
Variable path_exists : string -> bool.
Variable listdir : string -> result (list string).

Hypothesis Hquiet : mpl_quiet World mpl.
Hypothesis Hread : read_raises_Exceptions World read_file.

Lemma only_bind {A B : Type} (c : io World A) (k : A -> io World B) :
  only_Exceptions World c -> (forall a, only_Exceptions World (k a)) ->
  only_Exceptions World (io_bind World c k).
Proof.
  intros Hc Hk st st' e. unfold io_bind.
  destruct (c st) as [st1 [a | e1]] eqn:Ec.
  - apply Hk.
  - intros [= <- <-]. exact (Hc _ _ _ Ec).
Qed.

Lemma only_lift {A : Type} (r : result A) :
  (forall e, r = Raise e -> is_Exception e = true) ->
  only_Exceptions World (lift World r).
Proof. intros Hr st st' e [= _ E]. now apply Hr. Qed.

Lemma only_call (c : mpl_call) : only_Exceptions World (call World mpl c).
Proof. intros st st' e. rewrite (call_quiet World mpl Hquiet). discriminate. Qed.

Lemma only_say (m : said) : only_Exceptions World (say World m).
Proof. intros st st' e. discriminate. Qed.

Lemma select_raises (a : list float) (mask : list bool) (e : exn) :
  select a mask = Raise e -> is_Exception e = true.
Proof.
  revert mask. induction a as [| x a IH]; intros [| m mask]; simpl;
    try (intros [= <-]; reflexivity); try discriminate.
  destruct (select a mask) as [rest | e'] eqn:E; simpl; [discriminate |].
  intros [= <-]. now apply (IH mask).
Qed.

Lemma reduce_min_raises (a : list float) (e : exn) :
  reduce_min amin a = Raise e -> is_Exception e = true.
Proof. destruct a; simpl; [intros [= <-]; reflexivity | discriminate]. Qed.

Lemma reduce_max_raises (a : list float) (e : exn) :
  reduce_max amax a = Raise e -> is_Exception e = true.
Proof. destruct a; simpl; [intros [= <-]; reflexivity | discriminate]. Qed.

Lemma only_set_limits (fig : figure) (time data : list float)
    (time_min time_max : option float) :
  only_Exceptions World
    (set_limits World mpl amin amax fig time data time_min time_max).
Proof.
  assert (Hgen :
    only_Exceptions World
      (io_bind World (call World mpl (SetXlim fig time_min time_max))
         (fun _ =>
            io_bind World (lift World (select data (map (in_window time_min time_max) time)))
              (fun inside =>
                 io_bind World (lift World (reduce_min amin inside))
                   (fun lo =>
                      io_bind World
                        (lift World (select data (map (in_window time_min time_max) time)))
                        (fun inside0 =>
                           io_bind World (lift World (reduce_max amax inside0))
                             (fun hi =>
                                call World mpl
                                  (SetYlim fig (lo * 0.95)%float (hi * 1.05)%float)))))))).
  { apply only_bind; [apply only_call | intros _].
    apply only_bind; [apply only_lift, select_raises | intros inside].
    apply only_bind; [apply only_lift, reduce_min_raises | intros lo].
    apply only_bind; [apply only_lift, select_raises | intros inside0].
    apply only_bind; [apply only_lift, reduce_max_raises | intros hi].
    apply only_call. }
  unfold set_limits.
  destruct time_min, time_max; try exact Hgen.
  intros st st' e. discriminate.
Qed.

Lemma only_make_figure (fig : figure) (time raw smooth : list float)
    (args : plot_args) (title : caption) (test_number path : string) :
  only_Exceptions World
    (make_figure World mpl amin amax fig time raw smooth args title test_number path).
Proof.
  unfold make_figure.
  apply only_bind; [apply only_call | intros _].
  apply only_bind; [apply only_set_limits | intros _].
  apply only_bind; [apply only_call | intros _].
  apply only_bind; [apply only_say | intros _].
  apply only_call.
Qed.

Lemma only_say_range (a : list float) (m : float -> float -> said) :
  only_Exceptions World (say_range World amin amax a m).
Proof.
  unfold say_range.
  apply only_bind; [apply only_lift, reduce_min_raises | intros lo].
  apply only_bind; [apply only_lift, reduce_max_raises | intros hi].
  apply only_say.
Qed.

Lemma only_plot_io (filename : string) (args : plot_args) :
  only_Exceptions World
    (plot_io World read_file mpl float_of_str amin amax filename args).
Proof.
  unfold plot_io.
  apply only_bind.
  { intros st st' e. unfold open_and_read. intros [= _ E]. exact (Hread _ _ _ E). }
  intros lines.
  apply only_bind.
  { apply only_lift. intros e E.
    destruct (plot_shape float_of_str filename lines (arg_sensitivity_mv_per_a args))
      as (r & Hr & _). congruence. }
  intros r.
  apply only_bind; [apply only_make_figure | intros _].
  apply only_bind; [apply only_make_figure | intros _].
  apply only_bind; [apply only_say | intros _].
  do 5 (apply only_bind; [apply only_say_range | intros _]).
  apply only_bind; [apply only_say | intros _].
  apply only_say.
Qed.

Lemma as_run_plot_raises_Exceptions :
  raises_only_Exception World
    (as_run_plot World read_file mpl float_of_str amin amax).
Proof.
  intros filename args w e. unfold as_run_plot.
  destruct (plot_io World read_file mpl float_of_str amin amax filename args
              (PState World w [])) as [st [u | e']] eqn:E; simpl; [discriminate |].
  intros [= <-]. exact (only_plot_io filename args _ _ _ E).
Qed.

(** X25: in a batch, a capture without a single well-formed row does not stop
    the others: its plot ends in [ValueError], which is caught and named in an
    "Error processing" message, every capture of the sorted list is still
    attempted, and [generate_all_plots] returns normally. *)
Theorem batch_reports_empty_capture
    (args : plot_args) (names : list string) (csv_file : string)
    (st : state World) :
  path_exists (oscilloscope_data_dir script_dir) = true ->
  listdir (oscilloscope_data_dir script_dir) = Ok names ->
  In csv_file (csv_files_of names) ->
  (forall w, exists lines,
      read_file (csv_path script_dir csv_file) w = Ok lines
      /\ forall line, In line lines -> well_formed_row float_of_str line = false) ->
  exists st' new,
    generate_all_plots World
      (as_run_plot World read_file mpl float_of_str amin amax)
      script_dir path_exists listdir args st
    = (st', Ok tt)
    /\ log st' = log st ++ new
    /\ attempts new = map (csv_path script_dir) (csv_files_of names)
    /\ In (csv_file, ValueError) (reported new).
Proof.
  intros Hdir Hls Hin Hfile.
  set (run_plot := as_run_plot World read_file mpl float_of_str amin amax).
  assert (Hexn : raises_only_Exception World run_plot)
    by apply as_run_plot_raises_Exceptions.
  assert (Hraise : forall w,
             snd (run_plot (csv_path script_dir csv_file) args w) = Some ValueError).
  { intros w. destruct (Hfile w) as (lines & Hlines & Hnone).
    pose proof (plot_io_raises_without_samples World read_file mpl float_of_str
                  amin amax Hquiet (csv_path script_dir csv_file) args lines
                  (PState World w []) Hlines Hnone) as Hsnd.
    unfold run_plot, as_run_plot.
    destruct (plot_io World read_file mpl float_of_str amin amax
                (csv_path script_dir csv_file) args (PState World w []))
      as [st1 r]. simpl in *. now subst r. }
  unfold generate_all_plots. rewrite Hdir, Hls. simpl negb. cbv iota.
  destruct (csv_files_of names) as [| c0 cs] eqn:Ecsv; [destruct Hin |].
  rewrite <- Ecsv in *.
  destruct (batch_loop_log World run_plot script_dir args
              (length (csv_files_of names)) (csv_files_of names) Hexn 0%nat
              (print (MsgFound (length (csv_files_of names))) st))
    as (st1 & new1 & Eloop & Elog1 & Eatt & _).
  destruct (batch_loop_reports World run_plot script_dir args
              (length (csv_files_of names)) csv_file ValueError
              (csv_files_of names) Hexn Hraise Hin 0%nat
              (print (MsgFound (length (csv_files_of names))) st))
    as (new2 & Elog2 & Hrep).
  rewrite Eloop in *. cbn [fst] in Elog2.
  assert (new1 = new2) by (rewrite Elog1 in Elog2; now apply app_inv_head in Elog2).
  subst new2.
  exists (print (MsgCompleted (length (csv_files_of names))) st1),
    ([Print (MsgFound (length (csv_files_of names)))] ++ new1
       ++ [Print (MsgCompleted (length (csv_files_of names)))]).
  split; [reflexivity |]. split.
  - cbn [log print]. rewrite Elog1. cbn [log print]. now rewrite <- !app_assoc.
  - rewrite !attempts_app, !reported_app, Eatt. simpl. rewrite app_nil_r.
    split; [reflexivity |]. apply in_or_app. now left.
Qed.

End BatchOfPlots.

Lemma sample_read_raises : read_raises_Exceptions nat SampleIO.read_file.
Proof.
  intros filename w e. unfold SampleIO.read_file.
  destruct (String.eqb filename "Oscilloscope-Data/TEK0017.CSV"); [discriminate |].
  destruct (String.eqb filename "Oscilloscope-Data/TEK0001.CSV"); [discriminate |].
  intros [= <-]. reflexivity.
Qed.

Lemma batch_reports_empty_capture_witness :
  exists st' new,
    generate_all_plots nat
      (as_run_plot nat SampleIO.read_file SampleIO.mpl Sample.float_of_str
         SampleIO.amin SampleIO.amax)
      "" (fun _ => true)
      (fun _ => Ok ["TEK0017.CSV"; "TEK0001.CSV"]%string)
      (default_args 200) (State 0%nat [])
    = (st', Ok tt)
    /\ log st' = new
    /\ In ("TEK0001.CSV"%string, ValueError) (reported new).
Proof.
  destruct (batch_reports_empty_capture nat SampleIO.read_file SampleIO.mpl
              Sample.float_of_str SampleIO.amin SampleIO.amax ""
              (fun _ => true) (fun _ => Ok ["TEK0017.CSV"; "TEK0001.CSV"]%string)
              sample_mpl_quiet sample_read_raises
              (default_args 200) ["TEK0017.CSV"; "TEK0001.CSV"]%string
              "TEK0001.CSV"%string (State 0%nat []))
    as (st' & new & Hrun & Hlog & _ & Hrep).
  - reflexivity.
  - reflexivity.
  - vm_compute. now left.
  - intros w. exists ["Record Length,2500"; "Source,CH1"]%string.
    split; [reflexivity |].
    intros line [<- | [<- | []]]; vm_compute; reflexivity.
  - exists st', new. split; [exact Hrun |]. split; [exact Hlog | exact Hrep].
Defined.
